(** * LULU sales dashboard: the filter / aggregate pipeline of [app.py] and
    [new_app.py], embedded as Rocq functions.

    Conventions of the embedding.
    - A DataFrame is the list of its rows, in index order; a column (Series)
      is a list of cell values of that length.
    - pandas floats are exact rationals ([Q]); NaN is [None] for a missing
      [has_loyalty], a NaT timestamp, a missing budget, the mean of no rows,
      an unmatched join side and an age outside every bin.  The other cells
      of a loaded row (ids, emirate, category, product, gender, quantity,
      amount, age, points) are taken as present: a table with a blank in one
      of these columns is outside the embedding.
    - An integer column is int64: its sums wrap around at 64 bits.
    - A timestamp is the number of nanoseconds since 1970-01-01T00:00, a date
      the number of days since 1970-01-01. *)

From Stdlib Require Import List ZArith QArith Qround Bool String Ascii Lia.
From Stdlib Require Import Permutation Sorted DecimalString Lqa.
Import ListNotations.

Local Open Scope string_scope.
Local Open Scope list_scope.
Local Open Scope Z_scope.

(** ** Data model *)

Definition Timestamp := Z.
Definition Date := Z.

(** One row of [transactions.csv] (the columns the scripts read). *)
Record Transaction := mkTransaction {
  transaction_id : string;
  customer_id : string;
  transaction_datetime : option Timestamp;
  emirate : string;
  category : string;
  product : string;
  quantity : Z;
  total_aed : Q;
  gender : string;
  age : Q;
  has_loyalty : option bool;
  points_redeemed : Z
}.

(** One row of [ad_budget_monthly.csv]. *)
Record AdBudget := mkAdBudget {
  ad_month : string;
  ad_category : string;
  ad_budget_aed : option Q
}.

(** The options of the "Loyalty filter" select box. *)
Inductive LoyaltyFilter := All | LoyaltyMembers | NonMembers.

(** The sidebar widgets' values. *)
Record FilterState := mkFilterState {
  date_start : Date;
  date_end : Date;
  selected_emirates : list string;
  selected_categories : list string;
  selected_genders : list string;
  loyalty_filter : LoyaltyFilter
}.

(** The tables behind the charts. *)

(** A row of the loyalty-impact table. *)
Record LoyalRow := mkLoyalRow {
  customer_type : string;
  loyal_total_sales : Q;
  loyal_transactions : nat;
  loyal_avg_basket : option Q
}.

(** A row of the budget-against-sales table. *)
Record MergedRow := mkMergedRow {
  m_month : string;
  m_category : string;
  m_ad_budget_aed : Q;
  m_total_aed : Q
}.

(** A row of the top-products table. *)
Record ProductRow := mkProductRow {
  p_category : string;
  p_product : string;
  sales : Q;
  qty : Z
}.

(** ** pandas primitives used by the scripts *)

Module Pandas.

Definition ns_per_day : Z := 86400 * 1000000000.

(** [pd.to_datetime(date)]: midnight of that day. *)
Definition to_datetime (d : Date) : Timestamp := d * ns_per_day.

(** [pd.Timedelta(days=n)]. *)
Definition Timedelta_days (n : Z) : Z := n * ns_per_day.

(** [series >= t] and [series < t] on a datetime column: NaT compares
    false. *)
Definition ge_ts (t : Timestamp) (x : option Timestamp) : bool :=
  match x with Some v => t <=? v | None => false end.
Definition lt_ts (t : Timestamp) (x : option Timestamp) : bool :=
  match x with Some v => v <? t | None => false end.

(** [m1 & m2] on boolean Series. *)
Fixpoint mask_and (m1 m2 : list bool) : list bool :=
  match m1, m2 with
  | b1 :: t1, b2 :: t2 => (b1 && b2)%bool :: mask_and t1 t2
  | _, _ => []
  end.

(** [df[mask]]: boolean indexing keeps the rows whose mask cell is True. *)
Fixpoint bool_index {A} (df : list A) (mask : list bool) : list A :=
  match df, mask with
  | r :: t, b :: m => if b then r :: bool_index t m else bool_index t m
  | _, _ => []
  end.

(** [x in values] for one cell of [series.isin(values)]. *)
Definition isin (values : list string) (x : string) : bool :=
  existsb (String.eqb x) values.

(** [series == True] / [series == False] on a boolean-like column: a
    missing value equals neither. *)
Definition eq_bool (b : bool) (x : option bool) : bool :=
  match x with Some v => Bool.eqb v b | None => false end.

(** [series.sum()] on a float column. *)
Definition sum (xs : list Q) : Q := fold_right Qplus (0#1)%Q xs.

(** int64 arithmetic keeps the low 64 bits, read in two's complement. *)
Definition wrap_int64 (z : Z) : Z :=
  (z + 2 ^ 63) mod 2 ^ 64 - 2 ^ 63.

(** [series.sum()] on an integer (int64) column: the sum wraps around. *)
Definition sumZ (xs : list Z) : Z := wrap_int64 (fold_right Z.add 0 xs).

(** The distinct values of a column, in order of first appearance. *)
Fixpoint uniq {K} (eqb : K -> K -> bool) (xs : list K) : list K :=
  match xs with
  | [] => []
  | x :: t => x :: filter (fun y => negb (eqb y x)) (uniq eqb t)
  end.

(** [series.unique()] on a text column. *)
Definition unique (xs : list string) : list string := uniq String.eqb xs.

(** [series.nunique()]. *)
Definition nunique (xs : list string) : nat := List.length (unique xs).

(** [series.mean()]: NaN ([None]) on an empty column. *)
Definition mean (xs : list Q) : option Q :=
  match xs with
  | [] => None
  | _ => Some (sum xs / inject_Z (Z.of_nat (List.length xs)))%Q
  end.

(** *** [pd.cut] *)

Definition Qltb (x y : Q) : bool := negb (Qle_bool y x).

(** [bins.searchsorted(x, side="left")]: the first position whose edge is
    not below [x] (the edges are increasing). *)
Fixpoint searchsorted_left (bins : list Q) (x : Q) : nat :=
  match bins with
  | [] => O
  | b :: t => if Qltb b x then S (searchsorted_left t x) else O
  end.

(** [pd.cut(x, bins, labels=labels, include_lowest=...)] with the default
    [right=True], for one cell: the bin index is found from the left
    ([side="left"] because the bins are closed on the right), a value equal
    to the first edge is put in the first bin when [include_lowest], and
    index 0 or [len(bins)] is NaN. *)
Definition cut (bins : list Q) (labels : list string) (include_lowest : bool)
           (x : Q) : option string :=
  let ids := searchsorted_left bins x in
  let ids :=
    match bins with
    | b0 :: _ => if (include_lowest && Qeq_bool x b0)%bool then 1%nat else ids
    | [] => ids
    end in
  if (Nat.eqb ids (List.length bins) || Nat.eqb ids 0)%bool then None
  else nth_error labels (ids - 1)%nat.

(** *** [groupby] *)

(** Insertion of a key in an ordered list of keys. *)
Fixpoint insert_key {K} (leb : K -> K -> bool) (k : K) (ks : list K) : list K :=
  match ks with
  | [] => [k]
  | h :: t => if leb k h then k :: h :: t else h :: insert_key leb k t
  end.

Definition sort_keys {K} (leb : K -> K -> bool) (ks : list K) : list K :=
  fold_right (insert_key leb) [] ks.

(** The non-null cells of a key column ([dropna=True]). *)
Definition dropna {K} (xs : list (option K)) : list K :=
  flat_map (fun x => match x with Some k => [k] | None => [] end) xs.

(** [df.groupby(key)]: one group per distinct non-null key, groups in
    increasing key order ([sort=True]), each group holding its rows in
    frame order. *)
Definition groupby {A K} (eqb leb : K -> K -> bool) (key : A -> option K)
           (df : list A) : list (K * list A) :=
  map (fun k => (k, filter (fun r => match key r with
                                     | Some k' => eqb k' k
                                     | None => false
                                     end) df))
      (sort_keys leb (uniq eqb (dropna (map key df)))).

(** [df.groupby(key)] on a categorical key: one group per category, in
    category order; with [observed=False] also the categories no row has. *)
Definition groupby_categorical {A} (observed : bool) (categories : list string)
           (key : A -> option string) (df : list A) : list (string * list A) :=
  let groups :=
    map (fun c => (c, filter (fun r => match key r with
                                       | Some c' => String.eqb c' c
                                       | None => false
                                       end) df)) categories in
  if observed
  then filter (fun g => negb (Nat.eqb (List.length (snd g)) 0)) groups
  else groups.

(** Key comparisons for two-column groupings. *)
Definition pair_eqb (a b : string * string) : bool :=
  (String.eqb (fst a) (fst b) && String.eqb (snd a) (snd b))%bool.
Definition pair_leb (a b : string * string) : bool :=
  if String.eqb (fst a) (fst b) then String.leb (snd a) (snd b)
  else String.leb (fst a) (fst b).
Definition bool_leb (a b : bool) : bool := (negb a || b)%bool.

(** *** Month keys *)

(** Proleptic Gregorian (year, month) of a day count since 1970-01-01. *)
Definition year_month_of_days (days : Z) : Z * Z :=
  let z := days + 719468 in
  let era := z / 146097 in
  let doe := z - era * 146097 in
  let yoe := (doe - doe / 1460 + doe / 36524 - doe / 146096) / 365 in
  let y := yoe + era * 400 in
  let doy := doe - (365 * yoe + yoe / 4 - yoe / 100) in
  let mp := (5 * doy + 2) / 153 in
  let m := if mp <? 10 then mp + 3 else mp - 9 in
  (if m <=? 2 then y + 1 else y, m).

Definition digits (n : Z) : string :=
  NilZero.string_of_uint (N.to_uint (Z.to_N n)).

(** Decimal text of [n], left-padded with zeros to [width] characters. *)
Fixpoint zero_pad (width : nat) (s : string) : string :=
  match (width - String.length s)%nat with
  | O => s
  | S _ =>
    match width with
    | O => s
    | S w => String "0"%char (zero_pad w s)
    end
  end.

(** [series.dt.to_period('M').astype(str)] for one cell: "YYYY-MM", and
    "NaT" for a missing timestamp. *)
Definition to_period_M_str (t : option Timestamp) : string :=
  match t with
  | None => "NaT"
  | Some ns =>
    let (y, m) := year_month_of_days (ns / ns_per_day) in
    (zero_pad 4 (digits y) ++ "-" ++ zero_pad 2 (digits m))%string
  end.

(** *** [pd.merge(left, right, on=keys, how='left')] *)

(** Every left row, in left order, paired with each right row of the same
    key, or with nothing ([None], NaN cells) when there is none. *)
Definition merge_left {L R K} (eqb : K -> K -> bool) (kl : L -> K) (kr : R -> K)
           (left : list L) (right : list R) : list (L * option R) :=
  flat_map (fun l =>
              match filter (fun r => eqb (kl l) (kr r)) right with
              | [] => [(l, None)]
              | ms => map (fun r => (l, Some r)) ms
              end) left.

(** [x.fillna(0)] for one numeric cell. *)
Definition fillna0 (x : option Q) : Q :=
  match x with Some v => v | None => (0#1)%Q end.

(** *** [sort_values] *)

(** The sorting routine behind [kind='quicksort'], the default of
    [sort_values]: numpy's introsort or a vectorised sort, according to the
    build.  The scripts rely on its contract only, so it is a parameter. *)
Definition sort_algorithm := forall A : Type, (A -> Q) -> list A -> list A.

(** The contract: the result is a rearrangement of the input in increasing
    key order.  Nothing is promised about rows of equal keys. *)
Definition sorts_ascending (alg : sort_algorithm) : Prop :=
  forall (A : Type) (key : A -> Q) (l : list A),
    Permutation l (alg A key l) /\
    StronglySorted (fun a b => (key a <= key b)%Q) (alg A key l).

(** [df.sort_values(key, ascending=False)]: pandas reverses the rows, sorts
    them in increasing order and reverses the result. *)
Definition sort_values_desc (alg : sort_algorithm) {A} (key : A -> Q)
           (df : list A) : list A :=
  rev (alg A key (rev df)).

(** [df.head(n)]. *)
Definition head {A} (n : nat) (df : list A) : list A := firstn n df.

End Pandas.

(** ** numpy's sort behind [kind='quicksort'] *)

Module Numpy.
Import Pandas.

(** [series.argsort(kind='quicksort')] on a float column without NaN, as
    numpy's portable routine does it ([aquicksort] in npysort/quicksort.cpp,
    which is not part of the repository): the array [tosort] of row numbers
    is sorted by the keys [v] of the rows, by median-of-three partitioning
    while a range spans more than [SMALL_QUICKSORT] positions, by insertion
    below that, and by heapsort when the depth allowance is used up.  A
    build that hands [argsort] to a vectorised routine may leave rows of
    equal keys in another order. *)

Definition SMALL_QUICKSORT : nat := 16.

(** [v[i]]. *)
Definition key (v : list Q) (i : nat) : Q := nth i v (0 # 1)%Q.

(** [tosort[p]] and [tosort[p] = x]. *)
Definition get (a : list nat) (p : nat) : nat := nth p a O.

Fixpoint set (a : list nat) (p x : nat) : list nat :=
  match a, p with
  | [], _ => []
  | _ :: t, O => x :: t
  | y :: t, S p' => y :: set t p' x
  end.

(** [INTP_SWAP(tosort[p], tosort[q])]. *)
Definition swap (a : list nat) (p q : nat) : list nat :=
  let x := get a p in
  let y := get a q in
  set (set a p y) q x.

(** [do ++pi; while (v[*pi] < vp);] *)
Fixpoint scan_up (fuel : nat) (v : list Q) (a : list nat) (vp : Q) (pi : nat)
  : nat :=
  match fuel with
  | O => pi
  | S fuel' =>
    let pi := S pi in
    if Qltb (key v (get a pi)) vp then scan_up fuel' v a vp pi else pi
  end.

(** [do --pj; while (vp < v[*pj]);] *)
Fixpoint scan_down (fuel : nat) (v : list Q) (a : list nat) (vp : Q) (pj : nat)
  : nat :=
  match fuel with
  | O => pj
  | S fuel' =>
    let pj := Nat.pred pj in
    if Qltb vp (key v (get a pj)) then scan_down fuel' v a vp pj else pj
  end.

(** The loop that moves the smaller keys to the left of the larger ones;
    it ends when the two scans meet. *)
Fixpoint partition_loop (fuel : nat) (v : list Q) (a : list nat) (vp : Q)
         (pi pj : nat) : list nat * nat :=
  match fuel with
  | O => (a, pi)
  | S fuel' =>
    let pi := scan_up (S (List.length a)) v a vp pi in
    let pj := scan_down (S (List.length a)) v a vp pj in
    if Nat.leb pj pi then (a, pi)
    else partition_loop fuel' v (swap a pi pj) vp pi pj
  end.

(** One partition of the range [pl..pr]: the median of the first, middle
    and last key is the pivot; the result is the array and the pivot's
    final position. *)
Definition partition (v : list Q) (a : list nat) (pl pr : nat) : list nat * nat :=
  let pm := (pl + (pr - pl) / 2)%nat in
  let a := if Qltb (key v (get a pm)) (key v (get a pl)) then swap a pm pl else a in
  let a := if Qltb (key v (get a pr)) (key v (get a pm)) then swap a pr pm else a in
  let a := if Qltb (key v (get a pm)) (key v (get a pl)) then swap a pm pl else a in
  let vp := key v (get a pm) in
  let pj := (pr - 1)%nat in
  let a := swap a pm pj in
  let (a, pi) := partition_loop (List.length a) v a vp pl pj in
  (swap a pi (pr - 1)%nat, pi).

(** [while (pj > pl && vp < v[*pk]) *pj-- = *pk--;] with [pk = pj - 1]. *)
Fixpoint shift (fuel : nat) (v : list Q) (a : list nat) (vp : Q) (pl pj : nat)
  : list nat * nat :=
  match fuel with
  | O => (a, pj)
  | S fuel' =>
    if (Nat.ltb pl pj && Qltb vp (key v (get a (pj - 1)%nat)))%bool
    then shift fuel' v (set a pj (get a (pj - 1)%nat)) vp pl (pj - 1)%nat
    else (a, pj)
  end.

(** The insertion sort of a short range: [count] rounds starting with
    position [pi]. *)
Fixpoint insertion (count : nat) (v : list Q) (a : list nat) (pl pi : nat)
  : list nat :=
  match count with
  | O => a
  | S count' =>
    let vi := get a pi in
    let (a, pj) := shift (List.length a) v a (key v vi) pl pi in
    insertion count' v (set a pj vi) pl (S pi)
  end.

(** [aheapsort] on the [n] positions from [base] on, which it numbers from
    1: [a[i]] is [tosort[base + i - 1]]. *)
Definition get1 (a : list nat) (base i : nat) : nat := get a (base + i - 1)%nat.
Definition set1 (a : list nat) (base i x : nat) : list nat :=
  set a (base + i - 1)%nat x.

(** [for (...; j <= n;) { ... } a[i] = tmp;]: [tmp] sinks from [i]. *)
Fixpoint sift (fuel : nat) (v : list Q) (a : list nat) (base n tmp i j : nat)
  : list nat :=
  match fuel with
  | O => set1 a base i tmp
  | S fuel' =>
    if Nat.leb j n then
      let j := if (Nat.ltb j n
                   && Qltb (key v (get1 a base j)) (key v (get1 a base (j + 1))))%bool
               then (j + 1)%nat else j in
      if Qltb (key v tmp) (key v (get1 a base j))
      then sift fuel' v (set1 a base i (get1 a base j)) base n tmp j (j + j)%nat
      else set1 a base i tmp
    else set1 a base i tmp
  end.

(** [for (l = n >> 1; l > 0; --l)]. *)
Fixpoint build_heap (l : nat) (v : list Q) (a : list nat) (base n : nat)
  : list nat :=
  match l with
  | O => a
  | S l' =>
    build_heap l' v (sift (S n) v a base n (get1 a base l) l (2 * l)%nat) base n
  end.

(** [for (; n > 1;)]: the largest key goes last, the rest is a heap again. *)
Fixpoint drain_heap (n : nat) (v : list Q) (a : list nat) (base : nat)
  : list nat :=
  match n with
  | O => a
  | S n' =>
    match n' with
    | O => a
    | S _ =>
      let tmp := get1 a base n in
      let a := set1 a base n (get1 a base 1) in
      drain_heap n' v (sift (S n) v a base n' tmp 1 2) base
    end
  end.

Definition aheapsort (v : list Q) (a : list nat) (base n : nat) : list nat :=
  drain_heap n v (build_heap (n / 2) v a base n) base.

(** The main loop, with its stack of ranges put aside and the depth
    allowance of each.  [aquicksort_loop] is the inner [while] on the range
    [pl..pr]; [stack_pop] takes up the next range. *)
Fixpoint aquicksort_loop (fuel : nat) (v : list Q) (a : list nat) (pl pr : nat)
         (cdepth : Z) (stack : list (nat * nat * Z)) : list nat :=
  match fuel with
  | O => a
  | S fuel' =>
    if Nat.ltb SMALL_QUICKSORT (pr - pl) then
      let (a, pi) := partition v a pl pr in
      let cdepth := cdepth - 1 in
      if Nat.ltb (pi - pl) (pr - pi)
      then aquicksort_loop fuel' v a pl (pi - 1)%nat cdepth
                           ((S pi, pr, cdepth) :: stack)
      else aquicksort_loop fuel' v a (S pi) pr cdepth
                           ((pl, (pi - 1)%nat, cdepth) :: stack)
    else
      stack_pop fuel' v (insertion (pr - pl) v a pl (S pl)) stack
  end
with stack_pop (fuel : nat) (v : list Q) (a : list nat)
               (stack : list (nat * nat * Z)) : list nat :=
  match fuel with
  | O => a
  | S fuel' =>
    match stack with
    | [] => a
    | (pl, pr, cdepth) :: stack =>
      if cdepth <? 0
      then stack_pop fuel' v (aheapsort v a pl (pr - pl + 1)%nat) stack
      else aquicksort_loop fuel' v a pl pr cdepth stack
    end
  end.

(** The row numbers in increasing order of their keys. *)
Definition argsort (v : list Q) : list nat :=
  let num := List.length v in
  aquicksort_loop (4 * num + 4) v (seq 0 num) 0%nat (num - 1)%nat
                  (2 * Z.log2 (Z.of_nat num)) [].

(** The rows taken in the order [argsort] gives for their keys. *)
Definition quicksort : sort_algorithm :=
  fun A key l =>
    match l with
    | [] => []
    | d :: _ => map (fun i => nth i l d) (argsort (map key l))
    end.

End Numpy.

(** ** Python's format mini-language, as far as [st.metric] is fed by it *)

Module Format.
Import Pandas.

(** Round to the nearest integer, ties to the even one. *)
Definition round_half_even (x : Q) : Z :=
  let f := Qfloor x in
  match Qcompare (x - inject_Z f) (1#2) with
  | Lt => f
  | Gt => f + 1
  | Eq => if Z.even f then f else f + 1
  end.

(** Decimal digits of [n >= 0] in groups of three separated by commas. *)
Fixpoint group_thousands (fuel : nat) (n : Z) : string :=
  match fuel with
  | O => digits n
  | S fuel' =>
    if n <? 1000 then digits n
    else (group_thousands fuel' (n / 1000) ++ ","
            ++ zero_pad 3 (digits (n mod 1000)))%string
  end.

(** [f"{x:,.2f}"]: NaN prints as "nan". *)
Definition format_comma_2f (x : option Q) : string :=
  match x with
  | None => "nan"
  | Some q =>
    let n := Z.abs (round_half_even (q * (100#1))%Q) in
    ((if Qltb q (0#1) then "-" else EmptyString)
       ++ group_thousands (Z.to_nat (Z.log2 n)) (n / 100)
       ++ "." ++ zero_pad 2 (digits (n mod 100)))%string
  end.

(** [f"{n}"] for a count. *)
Definition format_int (n : nat) : string := digits (Z.of_nat n).

End Format.

(** ** Comma-separated text: [to_csv] and [read_csv] *)

Module Csv.

(** A frame as text: the column names and, per row, one text per column.
    For a table that was read, the texts are the cells as the tokenizer
    delivers them: pandas goes on to give each column the type it infers
    from its texts (a column of "001" becomes the number 1, the text "NA" a
    missing value) and to rename empty and repeated column names.  Neither
    step changes the number of rows or, when the names are distinct and not
    empty, the names. *)
Record Table := mkTable {
  header : list string;
  records : list (list string)
}.

Definition comma : ascii := ","%char.
Definition dquote : ascii := Ascii.ascii_of_nat 34.
Definition LF : ascii := Ascii.ascii_of_nat 10.
Definition CR : ascii := Ascii.ascii_of_nat 13.

(** The characters that make the writer quote a field: the separator, the
    quote, and the characters of the line terminator, which [to_csv] takes
    from [os.linesep] and is the line feed alone on a POSIX system.  A
    carriage return is not one of them. *)
Definition special (c : ascii) : bool :=
  (Ascii.eqb c comma || Ascii.eqb c dquote || Ascii.eqb c LF)%bool.

(** The writer quotes a field that holds a separator, a quote or a line
    feed ([QUOTE_MINIMAL]). *)
Definition needs_quote (s : list ascii) : bool := existsb special s.

(** A cell text with no carriage return outside quotes: it is quoted by the
    writer, or holds no carriage return at all. *)
Definition cr_safe (s : string) : bool :=
  let cs := list_ascii_of_string s in
  (needs_quote cs || negb (existsb (Ascii.eqb CR) cs))%bool.

(** Inside quotes a quote is doubled. *)
Definition escape (s : list ascii) : list ascii :=
  flat_map (fun c => if Ascii.eqb c dquote then [dquote; dquote] else [c]) s.

Definition write_field (s : string) : list ascii :=
  let cs := list_ascii_of_string s in
  if needs_quote cs then dquote :: escape cs ++ [dquote] else cs.

Fixpoint join_fields (fs : list (list ascii)) : list ascii :=
  match fs with
  | [] => []
  | [f] => f
  | f :: rest => f ++ comma :: join_fields rest
  end.

(** One line; a record that is a single empty field is written as a pair
    of quotes so that the line is not blank. *)
Definition write_record (r : list string) : list ascii :=
  match r with
  | [EmptyString] => [dquote; dquote; LF]
  | _ => join_fields (map write_field r) ++ [LF]
  end.

(** [df.to_csv(index=False)]: the header line, then one line per row. *)
Definition to_csv (t : Table) : string :=
  string_of_list_ascii
    (write_record (header t) ++ flat_map write_record (records t)).

(** The tokenizer of [read_csv]. *)
Inductive State :=
| START_RECORD | START_FIELD | IN_FIELD
| IN_QUOTED_FIELD | QUOTE_IN_QUOTED_FIELD | EAT_CRNL.

(** [field] and [line] are kept reversed while they grow. *)
Record Tok := mkTok {
  state : State;
  field : list ascii;
  line : list string;
  lines : list (list string)
}.

Definition end_field (t : Tok) : Tok :=
  mkTok START_FIELD [] (string_of_list_ascii (rev (field t)) :: line t) (lines t).

Definition end_line (st : State) (t : Tok) : Tok :=
  mkTok st [] [] (rev (line t) :: lines t).

Definition push (st : State) (c : ascii) (t : Tok) : Tok :=
  mkTok st (c :: field t) (line t) (lines t).

Definition set_state (st : State) (t : Tok) : Tok :=
  mkTok st (field t) (line t) (lines t).

Definition start_field (c : ascii) (t : Tok) : Tok :=
  if Ascii.eqb c LF then end_line START_RECORD (end_field t)
  else if Ascii.eqb c CR then set_state EAT_CRNL (end_field t)
  else if Ascii.eqb c dquote then set_state IN_QUOTED_FIELD t
  else if Ascii.eqb c comma then end_field t
  else push IN_FIELD c t.

Definition start_record (c : ascii) (t : Tok) : Tok :=
  if Ascii.eqb c LF then t                    (* a blank line is skipped *)
  else if Ascii.eqb c CR then t
  else start_field c t.

Definition step (t : Tok) (c : ascii) : Tok :=
  match state t with
  | START_RECORD => start_record c t
  | START_FIELD => start_field c t
  | IN_FIELD =>
    if Ascii.eqb c LF then end_line START_RECORD (end_field t)
    else if Ascii.eqb c CR then set_state EAT_CRNL (end_field t)
    else if Ascii.eqb c comma then end_field t
    else push IN_FIELD c t
  | IN_QUOTED_FIELD =>
    if Ascii.eqb c dquote then set_state QUOTE_IN_QUOTED_FIELD t
    else push IN_QUOTED_FIELD c t
  | QUOTE_IN_QUOTED_FIELD =>
    if Ascii.eqb c dquote then push IN_QUOTED_FIELD c t
    else if Ascii.eqb c comma then end_field t
    else if Ascii.eqb c LF then end_line START_RECORD (end_field t)
    else if Ascii.eqb c CR then set_state EAT_CRNL (end_field t)
    else push IN_FIELD c t
  | EAT_CRNL =>
    if Ascii.eqb c LF then end_line START_RECORD t
    else start_record c (end_line START_RECORD t)
  end.

(** At the end of the text an unfinished line is closed. *)
Definition finish (t : Tok) : list (list string) :=
  match state t with
  | START_RECORD => rev (lines t)
  | EAT_CRNL => rev (lines (end_line START_RECORD t))
  | _ => rev (lines (end_line START_RECORD (end_field t)))
  end.

(** The tokenizer run over some characters. *)
Definition run (cs : list ascii) (t : Tok) : Tok := fold_left step cs t.

Definition tokenize (text : string) : list (list string) :=
  finish (run (list_ascii_of_string text) (mkTok START_RECORD [] [] [])).

(** The state a separator leaves behind a field [s]: a comma opens the
    next field, a line break closes the line. *)
Definition after_field (sep : ascii) (s : string) (ln : list string)
           (lns : list (list string)) : Tok :=
  if Ascii.eqb sep LF then mkTok START_RECORD [] [] (rev (s :: ln) :: lns)
  else mkTok START_FIELD [] (s :: ln) lns.

Definition is_sep (sep : ascii) : Prop := sep = comma \/ sep = LF.

(** A short row is filled up with empty cells (NaN). *)
Definition pad (n : nat) (r : list string) : list string :=
  r ++ repeat EmptyString (n - List.length r).

(** [pd.read_csv(text)]: the first line names the columns, the others are
    the rows.  The first row fixes the width of the table: the number of
    names, or the number of its own cells when it has more, and then its
    extra leading cells, and those of every row, are the row labels (the
    index) and not a column.  A later row with more cells than that width is
    an error, and so is a text without any line ([None]); a shorter row is
    filled up. *)
Definition read_csv (text : string) : option Table :=
  match tokenize text with
  | [] => None
  | h :: rs =>
    let n := List.length h in
    let w := match rs with
             | [] => n
             | r :: _ => Nat.max n (List.length r)
             end in
    if forallb (fun r => Nat.leb (List.length r) w) rs
    then Some (mkTable h (map (fun r => skipn (w - n) (pad w r)) rs))
    else None
  end.

End Csv.

(** ** DataFrame objects and the interpreter's store *)

Module DataFrame.
Import Pandas.

(** A frame of transactions: the rows as loaded, and the columns a script
    has added to this object since, each with one cell per row (a missing
    cell is NaN), in the order they were added. *)
Record t := mkFrame {
  rows : list Transaction;
  extra : list (string * list (option string))
}.

Definition transaction_columns : list string :=
  ["transaction_id"; "customer_id"; "transaction_datetime"; "emirate";
   "category"; "product"; "quantity"; "total_aed"; "gender"; "age";
   "has_loyalty"; "points_redeemed"].

(** [df.columns]. *)
Definition columns (f : t) : list string :=
  transaction_columns ++ map fst (extra f).

(** [df[name] = cells] for a column that is not one of the loaded ones:
    an existing column is overwritten where it stands, a new one is put
    last. *)
Fixpoint set_extra (name : string) (cells : list (option string))
         (cols : list (string * list (option string)))
  : list (string * list (option string)) :=
  match cols with
  | [] => [(name, cells)]
  | c :: rest =>
    if String.eqb (fst c) name then (name, cells) :: rest
    else c :: set_extra name cells rest
  end.

Definition setitem (name : string) (cells : list (option string)) (f : t) : t :=
  mkFrame (rows f) (set_extra name cells (extra f)).

(** [df[name]] for an added column; [None] is a KeyError. *)
Definition getitem (name : string) (f : t) : option (list (option string)) :=
  option_map snd (find (fun c => String.eqb (fst c) name) (extra f)).

(** [df['transaction_datetime'] = cells]. *)
Definition set_datetime (r : Transaction) (d : option Timestamp) : Transaction :=
  mkTransaction (transaction_id r) (customer_id r) d (emirate r) (category r)
                (product r) (quantity r) (total_aed r) (gender r) (age r)
                (has_loyalty r) (points_redeemed r).

Definition setitem_datetime (cells : list (option Timestamp)) (f : t) : t :=
  mkFrame (map (fun p => set_datetime (fst p) (snd p)) (combine (rows f) cells))
          (extra f).

(** [df[mask]]: a new frame with the selected rows, all columns kept. *)
Definition getitem_mask (mask : list bool) (f : t) : t :=
  mkFrame (bool_index (rows f) mask)
          (map (fun c => (fst c, bool_index (snd c) mask)) (extra f)).

(** The texts [to_csv] writes for the twelve loaded cells of a row. *)
Record Cells := mkCells {
  c_transaction_id : string; c_customer_id : string;
  c_transaction_datetime : string; c_emirate : string;
  c_category : string; c_product : string; c_quantity : string;
  c_total_aed : string; c_gender : string; c_age : string;
  c_has_loyalty : string; c_points_redeemed : string
}.

Definition cells_list (c : Cells) : list string :=
  [c_transaction_id c; c_customer_id c; c_transaction_datetime c; c_emirate c;
   c_category c; c_product c; c_quantity c; c_total_aed c; c_gender c;
   c_age c; c_has_loyalty c; c_points_redeemed c].

(** NaN is written as the empty text. *)
Definition cell_text (x : option string) : string :=
  match x with Some s => s | None => EmptyString end.

Fixpoint text_records (render : Transaction -> Cells) (rs : list Transaction)
         (cols : list (list (option string))) : list (list string) :=
  match rs with
  | [] => []
  | r :: rest =>
    (cells_list (render r) ++ map (fun c => cell_text (hd None c)) cols)
      :: text_records render rest (map (@tl _) cols)
  end.

(** The frame as [to_csv] sees it; [render] is pandas' formatting of the
    loaded cells (numbers, timestamps, booleans). *)
Definition to_text (render : Transaction -> Cells) (f : t) : Csv.Table :=
  Csv.mkTable (columns f) (text_records render (rows f) (map snd (extra f))).

End DataFrame.

Module Store.

(** The objects the scripts hold: transaction frames and the budget
    table. *)
Inductive Obj :=
| OFrame (f : DataFrame.t)
| OAdBudget (a : list AdBudget).

(** The store: object number [l] is the [l]-th element. *)
Definition Heap := list Obj.
Definition loc := nat.

(** A script step reads and updates the store, or raises ([None]). *)
Definition M (A : Type) := Heap -> option (A * Heap).

Definition ret {A} (x : A) : M A := fun h => Some (x, h).
Definition raise {A} : M A := fun _ => None.
Definition bind {A B} (c : M A) (k : A -> M B) : M B :=
  fun h => match c h with Some (x, h') => k x h' | None => None end.

Definition alloc (o : Obj) : M loc := fun h => Some (List.length h, h ++ [o]).

Definition load (l : loc) : M Obj :=
  fun h => match nth_error h l with Some o => Some (o, h) | None => None end.

Fixpoint update (l : loc) (o : Obj) (h : Heap) : Heap :=
  match h, l with
  | [], _ => []
  | _ :: t, O => o :: t
  | x :: t, S l' => x :: update l' o t
  end.

Definition store (l : loc) (o : Obj) : M unit :=
  fun h => if Nat.ltb l (List.length h) then Some (tt, update l o h) else None.

Definition get_frame (l : loc) : M DataFrame.t :=
  bind (load l) (fun o => match o with OFrame f => ret f | _ => raise end).

Definition get_ad_budget (l : loc) : M (list AdBudget) :=
  bind (load l) (fun o => match o with OAdBudget a => ret a | _ => raise end).

(** [x.copy()]: a new object with the same content. *)
Definition copy (l : loc) : M loc := bind (load l) alloc.

(** [df[mask]]: a new object. *)
Definition getitem_mask (l : loc) (mask : list bool) : M loc :=
  bind (get_frame l) (fun f => alloc (OFrame (DataFrame.getitem_mask mask f))).

(** [df[name] = cells]: the object itself is changed. *)
Definition setitem (l : loc) (name : string) (cells : list (option string))
  : M unit :=
  bind (get_frame l) (fun f => store l (OFrame (DataFrame.setitem name cells f))).

Definition setitem_datetime (l : loc) (cells : list (option Timestamp)) : M unit :=
  bind (get_frame l) (fun f => store l (OFrame (DataFrame.setitem_datetime cells f))).

(** [df[name]]. *)
Definition getitem (l : loc) (name : string) : M (list (option string)) :=
  bind (get_frame l)
       (fun f => match DataFrame.getitem name f with
                 | Some c => ret c
                 | None => raise
                 end).

End Store.

Notation "x <- c ;; k" := (Store.bind c (fun x => k))
  (at level 61, c at next level, right associativity).
Notation "c ;;; k" := (Store.bind c (fun _ => k))
  (at level 61, right associativity).

(** ** [app.py] *)

Module App.
Import Pandas.

(** Lines 32-40: the filter pipeline. *)
Definition filtered (transactions : list Transaction) (fs : FilterState)
  : list Transaction :=
  let df := transactions in
  let start := to_datetime (date_start fs) in
  let end_ := to_datetime (date_end fs) + Timedelta_days 1 in
  let df := bool_index df
    (mask_and (map (fun r => ge_ts start (transaction_datetime r)) df)
              (map (fun r => lt_ts end_ (transaction_datetime r)) df)) in
  let df := bool_index df
    (mask_and
       (mask_and (map (fun r => isin (selected_emirates fs) (emirate r)) df)
                 (map (fun r => isin (selected_categories fs) (category r)) df))
       (map (fun r => isin (selected_genders fs) (gender r)) df)) in
  match loyalty_filter fs with
  | LoyaltyMembers => bool_index df (map (fun r => eq_bool true (has_loyalty r)) df)
  | NonMembers => bool_index df (map (fun r => eq_bool false (has_loyalty r)) df)
  | All => df
  end.

(** Lines 43-45: the KPIs. *)
Definition total_sales (df : list Transaction) : Q := sum (map total_aed df).
Definition total_transactions (df : list Transaction) : nat :=
  nunique (map transaction_id df).
Definition avg_basket (df : list Transaction) : option Q :=
  mean (map total_aed df).

(** Lines 46-48: the metrics as printed. *)
Definition metrics (df : list Transaction) : string * string * string :=
  (Format.format_comma_2f (Some (total_sales df)),
   Format.format_int (total_transactions df),
   Format.format_comma_2f (avg_basket df)).

(** Lines 54-56: the age-group column and the sales per age group. *)
Definition age_bins : list Q := [18#1; 25#1; 35#1; 45#1; 55#1; 65#1; 80#1]%Q.
Definition age_labels : list string :=
  ["18-24"; "25-34"; "35-44"; "45-54"; "55-64"; "65+"].

Definition age_group (r : Transaction) : option string :=
  cut age_bins age_labels true (age r).

(** [observed] is pandas' default for grouping on a categorical column
    ([False] before pandas 3, [True] from it on). *)
Definition age_dist_of (observed : bool) (df : list Transaction)
           (age_group_col : list (option string)) : list (string * Q) :=
  map (fun g => (fst g, sum (map (fun x => total_aed (fst x)) (snd g))))
      (groupby_categorical observed age_labels snd (combine df age_group_col)).

Definition age_dist (observed : bool) (df : list Transaction) : list (string * Q) :=
  age_dist_of observed df (map age_group df).

(** Line 60. *)
Definition gender_dist (df : list Transaction) : list (string * Q) :=
  map (fun g => (fst g, sum (map total_aed (snd g))))
      (groupby String.eqb String.leb (fun r => Some (gender r)) df).

(** Line 66. *)
Definition cat_em (df : list Transaction) : list ((string * string) * Q) :=
  map (fun g => (fst g, sum (map total_aed (snd g))))
      (groupby pair_eqb pair_leb (fun r => Some (emirate r, category r)) df).

(** Lines 72-73: the loyalty-impact table. *)
Definition loyal (df : list Transaction) : list LoyalRow :=
  map (fun g : bool * list Transaction =>
         mkLoyalRow (if fst g then "Members" else "Non-members")
                    (sum (map total_aed (snd g)))
                    (nunique (map transaction_id (snd g)))
                    (mean (map total_aed (snd g))))
      (groupby Bool.eqb bool_leb has_loyalty df).

(** Lines 78-84: points redeemed against sales, per customer; [None] when
    no row redeems points and the script shows its notice instead. *)
Definition redeem (df : list Transaction) : list Transaction :=
  bool_index df (map (fun r => 0 <? points_redeemed r) df).

Definition redeem_summary (df : list Transaction)
  : option (list (string * Z * Q)) :=
  match redeem df with
  | [] => None
  | rd =>
    Some (map (fun g => (fst g, sumZ (map points_redeemed (snd g)),
                         sum (map total_aed (snd g))))
              (groupby String.eqb String.leb (fun r => Some (customer_id r)) rd))
  end.

(** Lines 88-90: sales per (month, category). *)
Definition month_key (r : Transaction) : option string :=
  Some (to_period_M_str (transaction_datetime r)).

Definition sales_month_cat_of (monthly_sales : list Transaction)
           (month_col : list (option string)) : list ((string * string) * Q) :=
  map (fun g => (fst g, sum (map (fun x => total_aed (fst x)) (snd g))))
      (groupby pair_eqb pair_leb
               (fun x => option_map (fun m => (m, category (fst x))) (snd x))
               (combine monthly_sales month_col)).

Definition sales_month_cat (df : list Transaction)
  : list ((string * string) * Q) :=
  sales_month_cat_of df (map month_key df).

(** Lines 91-92: the budget table joined with the sales, missing numbers
    filled with 0. *)
Definition merged_of (ad : list AdBudget)
           (sales : list ((string * string) * Q)) : list MergedRow :=
  map (fun p =>
         mkMergedRow (ad_month (fst p)) (ad_category (fst p))
                     (fillna0 (ad_budget_aed (fst p)))
                     (fillna0 (option_map snd (snd p))))
      (merge_left pair_eqb (fun a => (ad_month a, ad_category a)) fst ad sales).

Definition merged (ad_budget : list AdBudget) (df : list Transaction)
  : list MergedRow :=
  merged_of ad_budget (sales_month_cat df).

(** Lines 95-100: [merged.melt], one row per joined row and metric, the
    budgets first. *)
Definition long_df (m : list MergedRow) : list (string * string * string * Q) :=
  map (fun r => (m_month r, m_category r, "ad_budget_aed", m_ad_budget_aed r)) m
  ++ map (fun r => (m_month r, m_category r, "total_aed", m_total_aed r)) m.

(** Line 114: the best-selling products. *)
Definition product_groups (df : list Transaction) : list ProductRow :=
  map (fun g => mkProductRow (fst (fst g)) (snd (fst g))
                             (sum (map total_aed (snd g)))
                             (sumZ (map quantity (snd g))))
      (groupby pair_eqb pair_leb (fun r => Some (category r, product r)) df).

Definition top_products (alg : sort_algorithm) (df : list Transaction)
  : list ProductRow :=
  head 15 (sort_values_desc alg sales (product_groups df)).

(** What one run of the script shows: the three metrics as printed, the
    tables behind the charts, and the text offered for download when the
    export button is pressed. *)
Record Outputs := mkOutputs {
  metric_total_sales : string;
  metric_transactions : string;
  metric_avg_basket : string;
  out_age_dist : list (string * Q);
  out_gender_dist : list (string * Q);
  out_cat_em : list ((string * string) * Q);
  out_loyal : list LoyalRow;
  out_redeem_summary : option (list (string * Z * Q));
  out_merged : list MergedRow;
  out_long_df : list (string * string * string * Q);
  out_top_products : list ProductRow;
  out_csv : string
}.

(** The script from line 32 on, statement by statement, on the store:
    [transactions] and [ad_budget] are the objects [load_data] returned. *)
Definition main (alg : sort_algorithm) (observed : bool)
           (render : Transaction -> DataFrame.Cells) (fs : FilterState)
           (transactions ad_budget : Store.loc) : Store.M Outputs :=
  df <- Store.copy transactions ;;
  f <- Store.get_frame df ;;
  Store.setitem_datetime df (map transaction_datetime (DataFrame.rows f)) ;;;
  let start := to_datetime (date_start fs) in
  let end_ := to_datetime (date_end fs) + Timedelta_days 1 in
  f <- Store.get_frame df ;;
  df <- Store.getitem_mask df
       (mask_and
          (map (fun r => ge_ts start (transaction_datetime r)) (DataFrame.rows f))
          (map (fun r => lt_ts end_ (transaction_datetime r)) (DataFrame.rows f))) ;;
  f <- Store.get_frame df ;;
  df <- Store.getitem_mask df
       (mask_and
          (mask_and
             (map (fun r => isin (selected_emirates fs) (emirate r)) (DataFrame.rows f))
             (map (fun r => isin (selected_categories fs) (category r)) (DataFrame.rows f)))
          (map (fun r => isin (selected_genders fs) (gender r)) (DataFrame.rows f))) ;;
  df <- match loyalty_filter fs with
        | LoyaltyMembers =>
          f <- Store.get_frame df ;;
          Store.getitem_mask df
            (map (fun r => eq_bool true (has_loyalty r)) (DataFrame.rows f))
        | NonMembers =>
          f <- Store.get_frame df ;;
          Store.getitem_mask df
            (map (fun r => eq_bool false (has_loyalty r)) (DataFrame.rows f))
        | All => Store.ret df
        end ;;
  f <- Store.get_frame df ;;
  let m_sales := Format.format_comma_2f (Some (total_sales (DataFrame.rows f))) in
  let m_count := Format.format_int (total_transactions (DataFrame.rows f)) in
  let m_avg := Format.format_comma_2f (avg_basket (DataFrame.rows f)) in
  Store.setitem df "age_group" (map age_group (DataFrame.rows f)) ;;;
  f <- Store.get_frame df ;;
  age_group_col <- Store.getitem df "age_group" ;;
  let t_age := age_dist_of observed (DataFrame.rows f) age_group_col in
  let t_gender := gender_dist (DataFrame.rows f) in
  let t_cat_em := cat_em (DataFrame.rows f) in
  let t_loyal := loyal (DataFrame.rows f) in
  let t_redeem := redeem_summary (DataFrame.rows f) in
  monthly_sales <- Store.copy df ;;
  fm <- Store.get_frame monthly_sales ;;
  Store.setitem monthly_sales "month" (map month_key (DataFrame.rows fm)) ;;;
  fm <- Store.get_frame monthly_sales ;;
  month_col <- Store.getitem monthly_sales "month" ;;
  let t_sales := sales_month_cat_of (DataFrame.rows fm) month_col in
  ad <- Store.copy ad_budget ;;
  a <- Store.get_ad_budget ad ;;
  let t_merged := merged_of a t_sales in
  f <- Store.get_frame df ;;
  let t_top := top_products alg (DataFrame.rows f) in
  Store.ret (mkOutputs m_sales m_count m_avg t_age t_gender t_cat_em t_loyal
                       t_redeem t_merged (long_df t_merged) t_top
                       (Csv.to_csv (DataFrame.to_text render f))).

(** The frame [df] names from line 55 on, the one line 121 writes: the
    filtered view with the age-group column. *)
Definition export_frame (transactions : list Transaction) (fs : FilterState)
  : DataFrame.t :=
  DataFrame.mkFrame (filtered transactions fs)
                    [("age_group", map age_group (filtered transactions fs))].

(** The same outputs written as functions of the loaded tables and the
    filter state. *)
Definition outputs (alg : sort_algorithm) (observed : bool)
           (render : Transaction -> DataFrame.Cells)
           (transactions : list Transaction) (ad_budget : list AdBudget)
           (fs : FilterState) : Outputs :=
  let df := filtered transactions fs in
  mkOutputs (Format.format_comma_2f (Some (total_sales df)))
            (Format.format_int (total_transactions df))
            (Format.format_comma_2f (avg_basket df))
            (age_dist observed df) (gender_dist df) (cat_em df) (loyal df)
            (redeem_summary df) (merged ad_budget df)
            (long_df (merged ad_budget df)) (top_products alg df)
            (Csv.to_csv
               (DataFrame.to_text render
                  (DataFrame.mkFrame df [("age_group", map age_group df)]))).

End App.

(** ** [new_app.py] *)

Module NewApp.
Import Pandas.

(** Lines 34-42: the filter pipeline. *)
Definition filtered (transactions : list Transaction) (fs : FilterState)
  : list Transaction :=
  let df := transactions in
  let start := to_datetime (date_start fs) in
  let end_ := to_datetime (date_end fs) + Timedelta_days 1 in
  let df := bool_index df
    (mask_and (map (fun r => ge_ts start (transaction_datetime r)) df)
              (map (fun r => lt_ts end_ (transaction_datetime r)) df)) in
  let df := bool_index df
    (mask_and
       (mask_and (map (fun r => isin (selected_emirates fs) (emirate r)) df)
                 (map (fun r => isin (selected_categories fs) (category r)) df))
       (map (fun r => isin (selected_genders fs) (gender r)) df)) in
  match loyalty_filter fs with
  | LoyaltyMembers => bool_index df (map (fun r => eq_bool true (has_loyalty r)) df)
  | NonMembers => bool_index df (map (fun r => eq_bool false (has_loyalty r)) df)
  | All => df
  end.

(** Lines 45-47: the KPIs. *)
Definition total_sales (df : list Transaction) : Q := sum (map total_aed df).
Definition total_transactions (df : list Transaction) : nat :=
  nunique (map transaction_id df).
Definition avg_basket (df : list Transaction) : option Q :=
  mean (map total_aed df).

(** Lines 48-50: the metrics as printed. *)
Definition metrics (df : list Transaction) : string * string * string :=
  (Format.format_comma_2f (Some (total_sales df)),
   Format.format_int (total_transactions df),
   Format.format_comma_2f (avg_basket df)).

(** Lines 56-58. *)
Definition age_bins : list Q := [18#1; 25#1; 35#1; 45#1; 55#1; 65#1; 80#1]%Q.
Definition age_labels : list string :=
  ["18-24"; "25-34"; "35-44"; "45-54"; "55-64"; "65+"].

Definition age_group (r : Transaction) : option string :=
  cut age_bins age_labels true (age r).

Definition age_dist (observed : bool) (df : list Transaction) : list (string * Q) :=
  let age_group_col := map age_group df in
  map (fun g => (fst g, sum (map (fun x => total_aed (fst x)) (snd g))))
      (groupby_categorical observed age_labels snd (combine df age_group_col)).

(** Line 62. *)
Definition gender_dist (df : list Transaction) : list (string * Q) :=
  map (fun g => (fst g, sum (map total_aed (snd g))))
      (groupby String.eqb String.leb (fun r => Some (gender r)) df).

(** Line 68. *)
Definition cat_em (df : list Transaction) : list ((string * string) * Q) :=
  map (fun g => (fst g, sum (map total_aed (snd g))))
      (groupby pair_eqb pair_leb (fun r => Some (emirate r, category r)) df).

(** Lines 74-75. *)
Definition loyal (df : list Transaction) : list LoyalRow :=
  map (fun g : bool * list Transaction =>
         mkLoyalRow (if fst g then "Members" else "Non-members")
                    (sum (map total_aed (snd g)))
                    (nunique (map transaction_id (snd g)))
                    (mean (map total_aed (snd g))))
      (groupby Bool.eqb bool_leb has_loyalty df).

(** Lines 80-86. *)
Definition redeem (df : list Transaction) : list Transaction :=
  bool_index df (map (fun r => 0 <? points_redeemed r) df).

Definition redeem_summary (df : list Transaction)
  : option (list (string * Z * Q)) :=
  match redeem df with
  | [] => None
  | rd =>
    Some (map (fun g => (fst g, sumZ (map points_redeemed (snd g)),
                         sum (map total_aed (snd g))))
              (groupby String.eqb String.leb (fun r => Some (customer_id r)) rd))
  end.

(** Lines 90-92. *)
Definition sales_month_cat (df : list Transaction)
  : list ((string * string) * Q) :=
  let monthly_sales := df in
  let month := map (fun r => to_period_M_str (transaction_datetime r)) monthly_sales in
  map (fun g => (fst g, sum (map (fun x => total_aed (fst x)) (snd g))))
      (groupby pair_eqb pair_leb (fun x => Some (snd x, category (fst x)))
               (combine monthly_sales month)).

(** [pd.to_numeric] on a column that is numeric already. *)
Definition to_numeric (x : option Q) : option Q := x.

(** Lines 93-98: the join, then each of the two number columns replaced by
    itself with the missing numbers filled with 0. *)
Definition merged (ad_budget : list AdBudget) (df : list Transaction)
  : list MergedRow :=
  let ad := ad_budget in
  let joined :=
    merge_left pair_eqb (fun a => (ad_month a, ad_category a)) fst
               ad (sales_month_cat df) in
  let ad_budget_col :=
    map (fun p => fillna0 (to_numeric (ad_budget_aed (fst p)))) joined in
  let total_col :=
    map (fun p => fillna0 (to_numeric (option_map snd (snd p)))) joined in
  map (fun x => mkMergedRow (ad_month (fst (fst (fst x))))
                            (ad_category (fst (fst (fst x))))
                            (snd (fst x)) (snd x))
      (combine (combine joined ad_budget_col) total_col).

(** Line 141. *)
Definition product_groups (df : list Transaction) : list ProductRow :=
  map (fun g => mkProductRow (fst (fst g)) (snd (fst g))
                             (sum (map total_aed (snd g)))
                             (sumZ (map quantity (snd g))))
      (groupby pair_eqb pair_leb (fun r => Some (category r, product r)) df).

Definition top_products (alg : sort_algorithm) (df : list Transaction)
  : list ProductRow :=
  head 15 (sort_values_desc alg sales (product_groups df)).

End NewApp.

(** ** Properties named by the specification *)

Module Spec.
Import Pandas.

(** The date condition of the filter: the timestamp is known and lies in
    [[start, end + 1 day)]. *)
Definition in_date_range (fs : FilterState) (r : Transaction) : Prop :=
  exists t, transaction_datetime r = Some t /\
            date_start fs * ns_per_day <= t < (date_end fs + 1) * ns_per_day.

(** The loyalty condition of the filter. *)
Definition loyalty_match (lf : LoyaltyFilter) (r : Transaction) : Prop :=
  match lf with
  | All => True
  | LoyaltyMembers => has_loyalty r = Some true
  | NonMembers => has_loyalty r = Some false
  end.

(** A row passes the filter when it meets the four conditions (the three
    memberships counted as one). *)
Definition passes (fs : FilterState) (r : Transaction) : Prop :=
  in_date_range fs r /\
  In (emirate r) (selected_emirates fs) /\
  In (category r) (selected_categories fs) /\
  In (gender r) (selected_genders fs) /\
  loyalty_match (loyalty_filter fs) r.

(** The same, as a test. *)
Definition passesb (fs : FilterState) (r : Transaction) : bool :=
  (ge_ts (to_datetime (date_start fs)) (transaction_datetime r)
   && lt_ts (to_datetime (date_end fs) + Timedelta_days 1) (transaction_datetime r)
   && (isin (selected_emirates fs) (emirate r)
       && isin (selected_categories fs) (category r)
       && isin (selected_genders fs) (gender r))
   && match loyalty_filter fs with
      | All => true
      | LoyaltyMembers => eq_bool true (has_loyalty r)
      | NonMembers => eq_bool false (has_loyalty r)
      end)%bool.

(** A metric text that shows zero or nothing: only zeros, separators and
    blanks. *)
Definition zero_or_blank (s : string) : bool :=
  forallb (fun c => existsb (Ascii.eqb c) ["0"; "."; ","; " "]%char)
          (list_ascii_of_string s).

(** Rows of equal sales keep, in [out], the order they have in [groups]. *)
Definition stable_ties (groups out : list ProductRow) : Prop :=
  forall v : Q, exists rest,
    filter (fun g => Qeq_bool (sales g) v) groups
    = filter (fun g => Qeq_bool (sales g) v) out ++ rest.

(** Insertion sort on a key, parameterised by the test that lets the new
    row go before a row already placed. *)
Fixpoint insert_by {A} (before : Q -> Q -> bool) (key : A -> Q) (x : A)
         (l : list A) : list A :=
  match l with
  | [] => [x]
  | y :: t => if before (key x) (key y) then x :: y :: t
              else y :: insert_by before key x t
  end.

Definition insertion_sort (before : Q -> Q -> bool) : sort_algorithm :=
  fun A key l => fold_right (insert_by before key) [] l.

(** A sort that keeps rows of equal keys in input order. *)
Definition stable_sort : sort_algorithm := insertion_sort Qle_bool.

(** The rows with a given loyalty flag. *)
Definition loyalty_rows (b : bool) (df : list Transaction) : list Transaction :=
  filter (fun r => match has_loyalty r with
                   | Some k' => Bool.eqb k' b
                   | None => false
                   end) df.

(** The sales of a month and category: the sum of total_aed over the rows
    of that month key and category. *)
Definition matching_sales (df : list Transaction) (month cat : string) : Q :=
  sum (map total_aed
           (filter (fun r =>
                      (String.eqb (to_period_M_str (transaction_datetime r)) month
                       && String.eqb (category r) cat)%bool) df)).

(** The joined row of a budget row: its budget, 0 if missing, and the
    sales of its month and category. *)
Definition budget_row (df : list Transaction) (a : AdBudget) : MergedRow :=
  mkMergedRow (ad_month a) (ad_category a) (fillna0 (ad_budget_aed a))
              (matching_sales df (ad_month a) (ad_category a)).

End Spec.

(** ** Sample data *)

Module Samples.

(** The date picker left on 2025-01-05, the one day of a table that holds
    [milk] only, and the three multi-selects emptied. *)
Definition selections_emptied : FilterState :=
  mkFilterState 20093 20093 [] [] [] All.

(** The year 2025, every emirate, category and gender of the samples. *)
Definition year_2025 : FilterState :=
  mkFilterState 20089 20453 ["Dubai"; "Abu Dhabi"] ["Grocery"; "Electronics"]
                ["F"; "M"] All.

Definition noon (d : Date) : option Timestamp :=
  Some (d * Pandas.ns_per_day + 43200000000000).

(** Two grocery rows of equal amount, on 2025-01-05 and 2025-01-06. *)
Definition milk : Transaction :=
  mkTransaction "T1" "C1" (noon 20093) "Dubai" "Grocery" "Milk" 1 (10 # 1)
                "F" (30 # 1) (Some true) 0.
Definition rice : Transaction :=
  mkTransaction "T2" "C2" (noon 20094) "Dubai" "Grocery" "Rice" 2 (10 # 1)
                "M" (40 # 1) (Some false) 0.

(** A second line of transaction T1, booked without the loyalty flag of
    the first. *)
Definition milk_again : Transaction :=
  mkTransaction "T1" "C1" (noon 20093) "Dubai" "Grocery" "Milk" 1 (10 # 1)
                "F" (30 # 1) (Some false) 0.

(** A customer aged 81. *)
Definition tv : Transaction :=
  mkTransaction "T3" "C3" (noon 20130) "Abu Dhabi" "Electronics" "TV" 1
                (1000 # 1) "M" (81 # 1) (Some true) 0.

(** A budget for groceries in January 2025. *)
Definition january_groceries : AdBudget :=
  mkAdBudget "2025-01" "Grocery" (Some (1000 # 1)).

(** Cell texts for the export: the text columns as they are, the others
    abbreviated to a marker. *)
Definition render (r : Transaction) : DataFrame.Cells :=
  DataFrame.mkCells (transaction_id r) (customer_id r) "datetime" (emirate r)
                    (category r) (product r) "quantity" "total" (gender r)
                    "age" "loyalty" "points".

(** A store holding the two loaded tables. *)
Definition store : Store.Heap :=
  [Store.OFrame (DataFrame.mkFrame [milk; rice; tv] []);
   Store.OAdBudget [january_groceries]].

(** A product whose name holds a carriage return (in the file it stands
    between quotes), and a store with a table of this one row. *)
Definition basmati : Transaction :=
  mkTransaction "T4" "C4" (noon 20095) "Dubai" "Grocery"
                ("Rice" ++ String Csv.CR "Basmati") 1 (10 # 1)
                "F" (30 # 1) (Some true) 0.

Definition basmati_store : Store.Heap :=
  [Store.OFrame (DataFrame.mkFrame [basmati] []);
   Store.OAdBudget [january_groceries]].

(** Three hundred grocery products, P000 to P299, with one sale each, at
    seven price levels in turn: 10, 20, ..., 70 AED, then 10 again. *)
Definition sale_of (i : nat) : Transaction :=
  let code := Pandas.zero_pad 3 (Pandas.digits (Z.of_nat i)) in
  mkTransaction ("T" ++ code) "C1" (noon 20093) "Dubai" "Grocery" ("P" ++ code) 1
                (inject_Z (10 * (1 + Z.of_nat i mod 7)))
                "F" (30 # 1) (Some true) 0.

Definition three_hundred_products : list Transaction := map sale_of (seq 0 300).

End Samples.

(** ** The sidebar: lines 22-29 of [app.py], 24-31 of [new_app.py] *)

Module Sidebar.
Import Pandas.

(** [series.min()] and [series.max()] on a datetime column: NaT cells are
    skipped, and the result is NaT when no cell is left. *)
Fixpoint ts_min (xs : list (option Timestamp)) : option Timestamp :=
  match xs with
  | [] => None
  | None :: t => ts_min t
  | Some v :: t => match ts_min t with
                   | Some m => Some (Z.min v m)
                   | None => Some v
                   end
  end.

Fixpoint ts_max (xs : list (option Timestamp)) : option Timestamp :=
  match xs with
  | [] => None
  | None :: t => ts_max t
  | Some v :: t => match ts_max t with
                   | Some m => Some (Z.max v m)
                   | None => Some v
                   end
  end.

(** [timestamp.date()]: the day the instant falls in. *)
Definition date (t : Timestamp) : Date := t / ns_per_day.

(** The values the widgets start with: the date picker spans the first to
    the last transaction day, each multi-select offers the distinct values
    of its column and has all of them selected, the select box stands on
    its first option.  Without any timestamp there are no two dates to
    start from ([None]). *)
Definition default_state (transactions : list Transaction) : option FilterState :=
  match ts_min (map transaction_datetime transactions),
        ts_max (map transaction_datetime transactions) with
  | Some min_date, Some max_date =>
    Some (mkFilterState (date min_date) (date max_date)
                        (unique (map emirate transactions))
                        (unique (map category transactions))
                        (unique (map gender transactions))
                        All)
  | _, _ => None
  end.

End Sidebar.

(** ** [load_data]: lines 9-11 of [app.py], 10-12 of [new_app.py] *)

Module Loader.

(** The files by path: the text of a file, or nothing at that path. *)
Definition Files := string -> option string.

(** The memo [st.cache_data] keeps for [load_data]: the tables returned so
    far, by argument, the latest first. *)
Definition Cache := list (string * Csv.Table).

Fixpoint lookup (path : string) (cache : Cache) : option Csv.Table :=
  match cache with
  | [] => None
  | (p, t) :: rest => if String.eqb p path then Some t else lookup path rest
  end.

(** [load_data(path)]: a path loaded before is answered from the memo;
    otherwise the file is read and parsed and the table remembered.  A
    missing or unreadable file raises ([None]) and nothing is remembered. *)
Definition load_data (files : Files) (path : string) (cache : Cache)
  : option Csv.Table * Cache :=
  match lookup path cache with
  | Some t => (Some t, cache)
  | None =>
    match files path with
    | None => (None, cache)
    | Some text =>
      match Csv.read_csv text with
      | None => (None, cache)
      | Some t => (Some t, (path, t) :: cache)
      end
    end
  end.

End Loader.

(** ** The budget-against-sales chart of [new_app.py], lines 100-134 *)

Module Chart.
Import Pandas.

(** A joined row with its [month_dt] cell. *)
Definition Row := (MergedRow * option Timestamp)%type.

Definition isna (r : Row) : bool :=
  match snd r with Some _ => false | None => true end.

(** [df.sort_values('month_dt')]: the rows with a date in increasing date
    order, by the routine of [kind='quicksort'], then the rows without
    ([na_position='last']), in frame order. *)
Definition sort_values_month_dt (alg : sort_algorithm) (df : list Row) : list Row :=
  alg Row (fun r => match snd r with Some t => inject_Z t | None => (0 # 1)%Q end)
      (filter (fun r => negb (isna r)) df)
  ++ filter isna df.

(** A line of the figure: [go.Scatter(x=..., y=..., name=...)]. *)
Record Trace := mkTrace {
  trace_name : string;
  trace_x : list (option Timestamp);
  trace_y : list Q;
  trace_dash : string
}.

(** Lines 110-134.  [safe_month_to_dt] is the script's conversion of a
    month key to a date, NaT ([None]) when both of its attempts fail; what
    [pd.to_datetime] accepts is left open. *)
Definition traces (alg : sort_algorithm) (safe_month_to_dt : string -> option Timestamp)
           (merged : list MergedRow) : list Trace :=
  let merged := map (fun m => (m, safe_month_to_dt (m_month m))) merged in
  let merged := sort_values_month_dt alg merged in
  flat_map
    (fun cat =>
       let dfc :=
         sort_values_month_dt alg
           (bool_index merged
              (map (fun r : Row => String.eqb (m_category (fst r)) cat) merged)) in
       if forallb isna dfc then []
       else [mkTrace (cat ++ " - Ad Budget")%string (map snd dfc)
                     (map (fun r : Row => m_ad_budget_aed (fst r)) dfc) "dash";
             mkTrace (cat ++ " - Sales")%string (map snd dfc)
                     (map (fun r : Row => m_total_aed (fst r)) dfc) "solid"])
    (unique (map (fun r : Row => m_category (fst r)) merged)).

End Chart.

(** ** Further properties and sample data *)

Module More.
Import Pandas.


(** The rows with a known timestamp, a known loyalty flag. *)
Definition has_timestamp (r : Transaction) : bool :=
  match transaction_datetime r with Some _ => true | None => false end.
Definition has_flag (r : Transaction) : bool :=
  match has_loyalty r with Some _ => true | None => false end.


(** The filter state with another loyalty choice. *)
Definition with_loyalty (fs : FilterState) (lf : LoyaltyFilter) : FilterState :=
  mkFilterState (date_start fs) (date_end fs) (selected_emirates fs)
                (selected_categories fs) (selected_genders fs) lf.

(** A month conversion that knows one month only. *)
Definition only_january (m : string) : option Timestamp :=
  if String.eqb m "2025-01" then Some (20089 * ns_per_day) else None.

Definition joined_samples : list MergedRow :=
  [mkMergedRow "2025-02" "Grocery" (5 # 1) (1 # 1);
   mkMergedRow "2025-01" "Grocery" (7 # 1) (2 # 1);
   mkMergedRow "sometime" "Toys" (9 # 1) (3 # 1)].

(** [b] is the month [a] or the month after it. *)
Definition same_or_next_month (a b : Z * Z) : bool :=
  ((fst b =? fst a) && (snd b =? snd a)
   || (fst b =? fst a) && (snd b =? snd a + 1)
   || (fst b =? fst a + 1) && (snd a =? 12) && (snd b =? 1))%bool.

(** A test holds for the [n] numbers from [start] on. *)
Fixpoint all_from (n : nat) (start : Z) (p : Z -> bool) : bool :=
  match n with
  | O => true
  | S k => (p start && all_from k (start + 1) p)%bool
  end.

(** The days of one 400-year cycle, counted from 0000-03-01. *)
Definition cycle_start : Z := -719468.
Definition cycle_days : Z := 146097.

End More.

(** * Theorems *)

Import Pandas.

(** ** Boolean indexing *)

Lemma bool_index_map {A} (f : A -> bool) (df : list A) :
  bool_index df (map f df) = filter f df.
Proof.
  induction df as [|r t IH]; simpl; [reflexivity|].
  rewrite IH. reflexivity.
Qed.

Lemma mask_and_map {A} (f g : A -> bool) (df : list A) :
  mask_and (map f df) (map g df) = map (fun r => (f r && g r)%bool) df.
Proof.
  induction df as [|r t IH]; simpl; [reflexivity|].
  now rewrite IH.
Qed.

Lemma filter_filter {A} (f g : A -> bool) (l : list A) :
  filter g (filter f l) = filter (fun r => (f r && g r)%bool) l.
Proof.
  induction l as [|r t IH]; simpl; [reflexivity|].
  destruct (f r); simpl; [destruct (g r)|]; now rewrite IH.
Qed.

Lemma filter_true {A} (l : list A) : filter (fun _ => true) l = l.
Proof. induction l; simpl; congruence. Qed.

Lemma isin_In (values : list string) (x : string) :
  isin values x = true <-> In x values.
Proof.
  unfold isin. rewrite existsb_exists. split.
  - intros (y & Hy & E). apply String.eqb_eq in E. now subst.
  - intros H. exists x. split; [assumption|apply String.eqb_refl].
Qed.

Lemma filtered_as_filter (T : list Transaction) (fs : FilterState) :
  App.filtered T fs = filter (Spec.passesb fs) T.
Proof.
  unfold App.filtered, Spec.passesb. cbv zeta.
  rewrite !mask_and_map, !bool_index_map.
  destruct (loyalty_filter fs); rewrite !filter_filter;
    apply filter_ext; intros r;
    rewrite ?Bool.andb_true_r, ?Bool.andb_assoc; reflexivity.
Qed.

Lemma passesb_passes (fs : FilterState) (r : Transaction) :
  Spec.passesb fs r = true <-> Spec.passes fs r.
Proof.
  unfold Spec.passesb, Spec.passes, Spec.in_date_range, Spec.loyalty_match.
  rewrite !Bool.andb_true_iff, !isin_In.
  unfold ge_ts, lt_ts, to_datetime, Timedelta_days, eq_bool.
  split.
  - intros [[[Hge Hlt] [[He Hc] Hg]] Hl].
    destruct (transaction_datetime r) as [t|]; [|discriminate].
    repeat split; try assumption.
    + exists t. split; [reflexivity|]. apply Z.leb_le in Hge. apply Z.ltb_lt in Hlt. lia.
    + destruct (loyalty_filter fs); [exact I| |];
        destruct (has_loyalty r) as [[|]|]; simpl in Hl; congruence.
  - intros ((t & Ht & Hr) & He & Hc & Hg & Hl). rewrite Ht.
    repeat split; try assumption.
    + apply Z.leb_le. lia.
    + apply Z.ltb_lt. lia.
    + destruct (loyalty_filter fs); [reflexivity| |]; rewrite Hl; reflexivity.
Qed.

(** C1. The filtered view is the transaction table restricted, in table
    order, to the rows that pass the filter: timestamp in
    [[start, end + 1 day)], emirate, category and gender each among the
    selected values, and the loyalty condition.  Hence it is a part of the
    table, total_sales is the sum of total_aed over exactly these rows, and
    an empty selection leaves no row. *)
Theorem filtered_view_exact (T : list Transaction) (fs : FilterState) :
  App.filtered T fs = filter (Spec.passesb fs) T /\
  (forall r, Spec.passesb fs r = true <-> Spec.passes fs r) /\
  (forall r, In r (App.filtered T fs) <-> In r T /\ Spec.passes fs r) /\
  incl (App.filtered T fs) T /\
  App.total_sales (App.filtered T fs)
    = sum (map total_aed (filter (Spec.passesb fs) T)) /\
  ((selected_emirates fs = [] \/ selected_categories fs = [] \/
    selected_genders fs = []) -> App.filtered T fs = []).
Proof.
  pose proof (filtered_as_filter T fs) as E.
  assert (Hin : forall r, In r (App.filtered T fs) <-> In r T /\ Spec.passes fs r).
  { intros r. rewrite E, filter_In, passesb_passes. reflexivity. }
  split; [exact E|].
  split; [apply passesb_passes|].
  split; [exact Hin|].
  split; [intros r Hr; now apply Hin in Hr|].
  split; [unfold App.total_sales; now rewrite E|].
  intros Hempty.
  destruct (App.filtered T fs) as [|r l] eqn:Ef; [reflexivity|exfalso].
  assert (Hr : In r (r :: l)) by now left.
  apply Hin in Hr. destruct Hr as [_ (_ & He & Hc & Hg & _)].
  destruct Hempty as [H|[H|H]]; rewrite H in *; contradiction.
Qed.

(** ** The two scripts *)

(** C9. [app.py] and [new_app.py] compute the same filtered view, the same
    KPIs (as numbers and as printed) and the same table for every view but
    the budget-against-sales one: age, gender, emirate by category, loyalty
    impact, redemption, top products. *)
Theorem variants_agree (alg : sort_algorithm) (observed : bool)
        (T df : list Transaction) (fs : FilterState) :
  App.filtered T fs = NewApp.filtered T fs /\
  App.total_sales df = NewApp.total_sales df /\
  App.total_transactions df = NewApp.total_transactions df /\
  App.avg_basket df = NewApp.avg_basket df /\
  App.metrics df = NewApp.metrics df /\
  App.age_dist observed df = NewApp.age_dist observed df /\
  App.gender_dist df = NewApp.gender_dist df /\
  App.cat_em df = NewApp.cat_em df /\
  App.loyal df = NewApp.loyal df /\
  App.redeem_summary df = NewApp.redeem_summary df /\
  App.top_products alg df = NewApp.top_products alg df.
Proof.
  repeat split; reflexivity.
Qed.

(** ** Age groups *)

Local Open Scope Q_scope.

Ltac split_comparisons :=
  repeat match goal with
         | |- context [Qle_bool ?a ?b] =>
           let E := fresh "E" in
           destruct (Qle_bool a b) eqn:E;
           [apply Qle_bool_iff in E
           |assert (~ a <= b) by (rewrite <- Qle_bool_iff; congruence); clear E]
         | |- context [Qeq_bool ?a ?b] =>
           let E := fresh "E" in
           destruct (Qeq_bool a b) eqn:E;
           [apply Qeq_bool_iff in E|apply Qeq_bool_neq in E]
         end.

(** What [pd.cut] does with the script's bins: each bin is closed on the
    right, and the first one on the left too. *)
Lemma age_group_bins (x : Q) :
  cut App.age_bins App.age_labels true x =
  if Qltb x 18 then None
  else if Qle_bool x 25 then Some "18-24"%string
  else if Qle_bool x 35 then Some "25-34"%string
  else if Qle_bool x 45 then Some "35-44"%string
  else if Qle_bool x 55 then Some "45-54"%string
  else if Qle_bool x 65 then Some "55-64"%string
  else if Qle_bool x 80 then Some "65+"%string
  else None.
Proof.
  unfold cut, App.age_bins, App.age_labels, searchsorted_left, Qltb.
  split_comparisons; simpl; try reflexivity; exfalso; lra.
Qed.

Lemma age_group_outside (x : Q) :
  x < 18 \/ 80 < x -> cut App.age_bins App.age_labels true x = None.
Proof.
  intros H. rewrite age_group_bins. unfold Qltb.
  split_comparisons; simpl; try reflexivity; exfalso; lra.
Qed.

(** C3. On the script's bins, ages 18 and 24.999 get the label "18-24" and
    age 80 the label "65+", but age 25 gets "18-24" too, not "25-34": the
    bins are closed on the right. *)
Theorem age_group_boundaries :
  cut App.age_bins App.age_labels true 18 = Some "18-24"%string /\
  cut App.age_bins App.age_labels true (24999 # 1000) = Some "18-24"%string /\
  cut App.age_bins App.age_labels true 80 = Some "65+"%string /\
  cut App.age_bins App.age_labels true 25 = Some "18-24"%string /\
  cut App.age_bins App.age_labels true 25 <> Some "25-34"%string.
Proof.
  repeat split; try reflexivity. discriminate.
Qed.

Local Close Scope Q_scope.

(** ** KPIs of an empty view *)

(** C4, as the scripts have it. With no row left, total_sales is 0, the
    transaction count is 0 and avg_basket is NaN; the three metrics are
    printed as "0.00", "0" and "nan". *)
Theorem empty_view_kpis (T : list Transaction) (fs : FilterState) :
  App.filtered T fs = [] ->
  App.total_sales (App.filtered T fs) = (0 # 1)%Q /\
  App.total_transactions (App.filtered T fs) = O /\
  App.avg_basket (App.filtered T fs) = None /\
  App.metrics (App.filtered T fs) = ("0.00", "0", "nan").
Proof.
  intros E. rewrite E. repeat split; reflexivity.
Qed.

(** A table of one row, its day in the date picker and the three
    multi-selects emptied: the view is empty and the metrics read "0.00",
    "0" and "nan". *)
Lemma empty_view_kpis_witness :
  App.filtered [Samples.milk] Samples.selections_emptied = [] /\
  App.total_sales (App.filtered [Samples.milk] Samples.selections_emptied)
  = (0 # 1)%Q /\
  App.total_transactions (App.filtered [Samples.milk] Samples.selections_emptied)
  = O /\
  App.avg_basket (App.filtered [Samples.milk] Samples.selections_emptied) = None /\
  App.metrics (App.filtered [Samples.milk] Samples.selections_emptied)
  = ("0.00", "0", "nan").
Proof.
  split; [reflexivity|].
  apply (empty_view_kpis [Samples.milk] Samples.selections_emptied). reflexivity.
Defined.

(** C4 as stated fails: for the table that holds [milk] only, with the
    three multi-selects emptied, the view is empty and the avg_basket
    metric is printed as "nan", which is neither zero nor blank. *)
Lemma empty_view_avg_basket_is_nan :
  ~ (forall T fs, App.filtered T fs = [] ->
       Spec.zero_or_blank (snd (App.metrics (App.filtered T fs))) = true).
Proof.
  intros H. specialize (H [Samples.milk] Samples.selections_emptied eq_refl).
  vm_compute in H. discriminate.
Qed.

(** ** The script on the store *)

Lemma alloc_app (h l : Store.Heap) (o : Store.Obj) :
  Store.alloc o (h ++ l)
  = Some ((List.length h + List.length l)%nat, h ++ (l ++ [o])).
Proof.
  unfold Store.alloc. now rewrite length_app, app_assoc.
Qed.

Lemma load_new (h l : Store.Heap) (k : nat) :
  Store.load (List.length h + k)%nat (h ++ l)
  = match nth_error l k with Some o => Some (o, h ++ l) | None => None end.
Proof.
  unfold Store.load. rewrite nth_error_app2 by lia.
  now replace (List.length h + k - List.length h)%nat with k by lia.
Qed.

Lemma load_old (h l : Store.Heap) (k : nat) (o : Store.Obj) :
  nth_error h k = Some o -> Store.load k (h ++ l) = Some (o, h ++ l).
Proof.
  intros H. unfold Store.load.
  rewrite nth_error_app1 by (apply nth_error_Some; congruence).
  now rewrite H.
Qed.

Lemma update_new (h l : Store.Heap) (k : nat) (o : Store.Obj) :
  Store.update (List.length h + k)%nat o (h ++ l) = h ++ Store.update k o l.
Proof.
  induction h as [|x h IH]; simpl; [reflexivity|]. now rewrite IH.
Qed.

Lemma store_new (h l : Store.Heap) (k : nat) (o : Store.Obj) :
  Store.store (List.length h + k)%nat o (h ++ l)
  = if Nat.ltb k (List.length l) then Some (tt, h ++ Store.update k o l) else None.
Proof.
  unfold Store.store. rewrite length_app, update_new.
  destruct (Nat.ltb_spec k (List.length l));
    destruct (Nat.ltb_spec (List.length h + k)%nat (List.length h + List.length l)%nat);
    try reflexivity; lia.
Qed.

Lemma set_datetime_same (df : list Transaction) :
  map (fun p => DataFrame.set_datetime (fst p) (snd p))
      (combine df (map transaction_datetime df)) = df.
Proof.
  induction df as [|r t IH]; simpl; [reflexivity|].
  rewrite IH. now destruct r.
Qed.

Lemma age_group_month_differ : String.eqb "age_group" "month" = false.
Proof. reflexivity. Qed.

Ltac run_store :=
  unfold Store.copy, Store.getitem_mask, Store.setitem,
    Store.setitem_datetime, Store.getitem, Store.get_frame,
    Store.get_ad_budget, Store.ret, Store.bind,
    DataFrame.getitem_mask, DataFrame.setitem, DataFrame.setitem_datetime,
    DataFrame.getitem; cbv beta;
  repeat progress
    (rewrite ?alloc_app, ?load_new, ?store_new;
     cbn [nth_error List.length Nat.ltb Nat.leb Store.update app Nat.add
          DataFrame.rows DataFrame.extra DataFrame.set_extra
          map fst snd find option_map];
     rewrite ?set_datetime_same, ?String.eqb_refl, ?age_group_month_differ).

Lemma main_run (alg : sort_algorithm) (observed : bool)
      (render : Transaction -> DataFrame.Cells) (fs : FilterState)
      (h : Store.Heap) (transactions ad_budget : Store.loc)
      (T : list Transaction) (A : list AdBudget) :
  nth_error h transactions = Some (Store.OFrame (DataFrame.mkFrame T [])) ->
  nth_error h ad_budget = Some (Store.OAdBudget A) ->
  exists fresh,
    App.main alg observed render fs transactions ad_budget h
    = Some (App.outputs alg observed render T A fs, h ++ fresh).
Proof.
  intros HT HA.
  cut (forall h0, h0 = h ++ [] -> exists fresh,
          App.main alg observed render fs transactions ad_budget h0
          = Some (App.outputs alg observed render T A fs, h ++ fresh)).
  { intros Hc. apply Hc. now rewrite app_nil_r. }
  intros h0 ->.
  unfold App.main, App.outputs, App.filtered. cbv zeta.
  destruct (loyalty_filter fs);
    unfold Store.copy, Store.bind; cbv beta;
    rewrite (load_old _ _ _ _ HT); run_store;
    rewrite (load_old _ _ _ _ HA); run_store;
    eexists; reflexivity.
Qed.

(** ** Comma-separated text read back *)

Module CsvFacts.
Import Csv.

Lemma run_app (a b : list ascii) (t : Tok) : run (a ++ b) t = run b (run a t).
Proof. apply fold_left_app. Qed.

Lemma run_cons (c : ascii) (cs : list ascii) (t : Tok) :
  run (c :: cs) t = run cs (step t c).
Proof. reflexivity. Qed.

Lemma special_false (c : ascii) :
  special c = false ->
  Ascii.eqb c comma = false /\ Ascii.eqb c dquote = false /\
  Ascii.eqb c LF = false.
Proof.
  unfold special. rewrite !Bool.orb_false_iff. tauto.
Qed.

(** A bare field that is safe holds no carriage return. *)
Lemma cr_safe_bare (s : string) :
  cr_safe s = true -> needs_quote (list_ascii_of_string s) = false ->
  existsb (Ascii.eqb CR) (list_ascii_of_string s) = false.
Proof.
  unfold cr_safe. cbv zeta. intros H Hq. rewrite Hq in H.
  now apply Bool.negb_true_iff in H.
Qed.

(** Plain characters inside an unquoted field are taken as they come. *)
Lemma run_plain (cs acc : list ascii) (ln : list string) (lns : list (list string)) :
  needs_quote cs = false -> existsb (Ascii.eqb CR) cs = false ->
  run cs (mkTok IN_FIELD acc ln lns) = mkTok IN_FIELD (rev cs ++ acc) ln lns.
Proof.
  revert acc. induction cs as [|c cs IH]; intros acc H Hcr; [reflexivity|].
  simpl in H. apply Bool.orb_false_iff in H. destruct H as [Hc Hcs].
  cbn [existsb] in Hcr. apply Bool.orb_false_iff in Hcr. destruct Hcr as [H4 Hcr].
  rewrite Ascii.eqb_sym in H4.
  apply special_false in Hc. destruct Hc as (H1 & H2 & H3).
  rewrite run_cons. unfold step. cbn [state]. rewrite H1, H3, H4.
  unfold push. cbn [field line lines].
  rewrite IH by assumption. cbn [rev]. now rewrite <- app_assoc.
Qed.

(** Inside quotes every character is taken, a doubled quote as one. *)
Lemma run_quoted (cs acc : list ascii) (ln : list string) (lns : list (list string)) :
  run (escape cs) (mkTok IN_QUOTED_FIELD acc ln lns)
  = mkTok IN_QUOTED_FIELD (rev cs ++ acc) ln lns.
Proof.
  revert acc. induction cs as [|c cs IH]; intros acc; [reflexivity|].
  unfold escape. cbn [flat_map]. fold (escape cs).
  rewrite run_app.
  assert (E : run (if Ascii.eqb c dquote then [dquote; dquote] else [c])
                  (mkTok IN_QUOTED_FIELD acc ln lns)
              = mkTok IN_QUOTED_FIELD (c :: acc) ln lns).
  { destruct (Ascii.eqb c dquote) eqn:Ec.
    - apply Ascii.eqb_eq in Ec. subst c. reflexivity.
    - rewrite run_cons. unfold step. cbn [state]. now rewrite Ec. }
  rewrite E, IH. cbn [rev]. now rewrite <- app_assoc.
Qed.

Lemma run_field (st : State) (s : string) (sep : ascii) (ln : list string)
      (lns : list (list string)) :
  is_sep sep -> cr_safe s = true ->
  st = START_FIELD \/ (st = START_RECORD /\ (s <> EmptyString \/ sep = comma)) ->
  run (write_field s ++ [sep]) (mkTok st [] ln lns) = after_field sep s ln lns.
Proof.
  intros Hsep Hsafe Hst. unfold write_field.
  pose proof (cr_safe_bare s Hsafe) as Hcr.
  pose proof (string_of_list_ascii_of_string s) as Hs.
  destruct (needs_quote (list_ascii_of_string s)) eqn:Hq.
  - (* quoted *)
    cbn [app]. rewrite app_comm_cons, run_app.
    change (dquote :: escape (list_ascii_of_string s) ++ [dquote])
      with ([dquote] ++ escape (list_ascii_of_string s) ++ [dquote]).
    rewrite !run_app.
    assert (E0 : run [dquote] (mkTok st [] ln lns) = mkTok IN_QUOTED_FIELD [] ln lns).
    { destruct Hst as [->|[-> _]]; reflexivity. }
    rewrite E0, run_quoted, app_nil_r.
    rewrite !run_cons. unfold run. cbn [fold_left].
    unfold step at 2. cbn [state].
    rewrite Ascii.eqb_refl. unfold set_state. cbn [field line lines].
    unfold step. cbn [state]. unfold after_field, end_field, end_line.
    cbn [field line lines]. rewrite rev_involutive, Hs.
    destruct Hsep as [->| ->]; reflexivity.
  - (* bare *)
    specialize (Hcr eq_refl).
    destruct (list_ascii_of_string s) as [|c cs] eqn:Ecs.
    + simpl in Hs. subst s. cbn [app].
      destruct Hsep as [->| ->].
      * destruct Hst as [->|[-> _]]; reflexivity.
      * destruct Hst as [->|[-> [H|H]]]; try reflexivity.
        -- congruence.
        -- discriminate.
    + cbn [app].
      simpl in Hq. apply Bool.orb_false_iff in Hq. destruct Hq as [Hc Hcs].
      cbn [existsb] in Hcr. apply Bool.orb_false_iff in Hcr. destruct Hcr as [H4 Hcr].
      rewrite Ascii.eqb_sym in H4.
      apply special_false in Hc. destruct Hc as (H1 & H2 & H3).
      assert (E0 : run [c] (mkTok st [] ln lns) = mkTok IN_FIELD [c] ln lns).
      { rewrite run_cons. unfold run. cbn [fold_left].
        destruct Hst as [->|[-> _]]; unfold step; cbn [state];
          unfold start_record, start_field; now rewrite ?H1, ?H2, ?H3, ?H4. }
      change (c :: cs ++ [sep]) with ([c] ++ cs ++ [sep]).
      rewrite !run_app, E0, run_plain by assumption.
      rewrite run_cons. unfold run. cbn [fold_left]. unfold step. cbn [state].
      unfold after_field, end_field, end_line. cbn [field line lines].
      rewrite rev_app_distr, rev_involutive. cbn [rev app]. rewrite Hs.
      destruct Hsep as [->| ->]; reflexivity.
Qed.

(** The fields of a line, then its line break. *)
Lemma run_fields (r : list string) (st : State) (ln : list string)
      (lns : list (list string)) :
  r <> [] -> forallb cr_safe r = true ->
  st = START_FIELD \/ (st = START_RECORD /\ r <> [EmptyString]) ->
  run (join_fields (map write_field r) ++ [LF]) (mkTok st [] ln lns)
  = mkTok START_RECORD [] [] ((rev ln ++ r) :: lns).
Proof.
  revert st ln. induction r as [|f r IH]; intros st ln Hne Hsafe Hst; [congruence|].
  cbn [forallb] in Hsafe. apply Bool.andb_true_iff in Hsafe.
  destruct Hsafe as [Hf Hsafe].
  destruct r as [|g r].
  - cbn [map join_fields].
    rewrite run_field.
    + unfold after_field. rewrite Ascii.eqb_refl. reflexivity.
    + now right.
    + exact Hf.
    + destruct Hst as [->|[-> H]]; [now left|right].
      split; [reflexivity|]. left. congruence.
  - change (join_fields (map write_field (f :: g :: r)))
      with (write_field f ++ comma :: join_fields (map write_field (g :: r))).
    rewrite <- app_assoc.
    change ((comma :: join_fields (map write_field (g :: r))) ++ [LF])
      with ([comma] ++ (join_fields (map write_field (g :: r)) ++ [LF])).
    rewrite app_assoc, run_app, run_field.
    + unfold after_field.
      change (Ascii.eqb comma LF) with false. cbv iota.
      rewrite IH; [|discriminate|exact Hsafe|now left].
      cbn [rev]. now rewrite <- app_assoc.
    + now left.
    + exact Hf.
    + destruct Hst as [->|[-> H]]; [now left|right]. split; [reflexivity|now right].
Qed.

Lemma run_record (r : list string) (lns : list (list string)) :
  r <> [] -> forallb cr_safe r = true ->
  run (write_record r) (mkTok START_RECORD [] [] lns)
  = mkTok START_RECORD [] [] (r :: lns).
Proof.
  intros Hne Hsafe.
  assert (D : r = [EmptyString] \/ r <> [EmptyString]).
  { destruct r as [|[|c s] [|g r]]; try (right; discriminate). now left. }
  destruct D as [->|D]; [reflexivity|].
  assert (E : write_record r = join_fields (map write_field r) ++ [LF]).
  { destruct r as [|[|c s] [|g r]]; try reflexivity. congruence. }
  rewrite E, run_fields; [reflexivity|assumption|assumption|right; now split].
Qed.

Lemma run_records (rs : list (list string)) (lns : list (list string)) :
  Forall (fun r => r <> []) rs -> forallb (forallb cr_safe) rs = true ->
  run (flat_map write_record rs) (mkTok START_RECORD [] [] lns)
  = mkTok START_RECORD [] [] (rev rs ++ lns).
Proof.
  revert lns. induction rs as [|r rs IH]; intros lns H Hsafe; [reflexivity|].
  inversion H as [|? ? Hr Hrs]; subst.
  cbn [forallb] in Hsafe. apply Bool.andb_true_iff in Hsafe.
  destruct Hsafe as [Hs1 Hs2].
  cbn [flat_map]. rewrite run_app, run_record, IH by assumption.
  cbn [rev]. now rewrite <- app_assoc.
Qed.

(** The tokenizer gets back the fields the writer was given, when none of
    them holds a carriage return outside quotes. *)
Lemma tokenize_to_csv (t : Table) :
  header t <> [] -> Forall (fun r => r <> []) (records t) ->
  forallb cr_safe (header t) = true ->
  forallb (forallb cr_safe) (records t) = true ->
  tokenize (to_csv t) = header t :: records t.
Proof.
  intros Hh Hr Hsh Hsr. unfold tokenize, to_csv.
  rewrite list_ascii_of_string_of_list_ascii.
  rewrite run_app, run_record, run_records by assumption.
  unfold finish. cbn [state lines].
  rewrite rev_app_distr, rev_involutive. reflexivity.
Qed.

Lemma pad_full (n : nat) (r : list string) : List.length r = n -> pad n r = r.
Proof.
  intros <-. unfold pad. rewrite Nat.sub_diag. apply app_nil_r.
Qed.

(** The text of a table with at least one column, one cell per column in
    every row and no carriage return outside quotes is split by [read_csv]
    into the names and cell texts that were written. *)
Lemma read_csv_to_csv (t : Table) :
  header t <> [] ->
  Forall (fun r => List.length r = List.length (header t)) (records t) ->
  forallb cr_safe (header t) = true ->
  forallb (forallb cr_safe) (records t) = true ->
  read_csv (to_csv t) = Some t.
Proof.
  intros Hh Hr Hsh Hsr. unfold read_csv.
  rewrite tokenize_to_csv; [|assumption| |assumption|assumption].
  - cbv zeta.
    assert (W : match records t with
                | [] => List.length (header t)
                | r :: _ => Nat.max (List.length (header t)) (List.length r)
                end = List.length (header t)).
    { destruct (records t) as [|r rs]; [reflexivity|].
      inversion Hr as [|? ? Hl _]; subst. rewrite Hl. apply Nat.max_id. }
    rewrite W, Nat.sub_diag.
    assert (E1 : forallb (fun r => Nat.leb (List.length r) (List.length (header t)))
                         (records t) = true).
    { apply forallb_forall. intros r Hin. rewrite Forall_forall in Hr.
      rewrite (Hr r Hin). apply Nat.leb_refl. }
    rewrite E1.
    assert (E2 : map (fun r => skipn 0 (pad (List.length (header t)) r)) (records t)
                 = records t).
    { rewrite <- (map_id (records t)) at 2. apply map_ext_in.
      intros r Hin. rewrite Forall_forall in Hr. cbn [skipn]. now apply pad_full, Hr. }
    rewrite E2. now destruct t.
  - eapply Forall_impl; [|exact Hr]. intros r Hl Hnil. subst r.
    destruct (header t); [congruence|discriminate].
Qed.

End CsvFacts.

(** ** Sorting *)

Section InsertionSort.
Variable before : Q -> Q -> bool.
Hypothesis before_true : forall a b, before a b = true -> (a <= b)%Q.
Hypothesis before_false : forall a b, before a b = false -> (b <= a)%Q.

Variable A : Type.
Variable key : A -> Q.

Lemma insert_by_perm (x : A) (l : list A) :
  Permutation (x :: l) (Spec.insert_by before key x l).
Proof.
  induction l as [|y t IH]; simpl; [reflexivity|].
  destruct (before (key x) (key y)); [reflexivity|].
  rewrite perm_swap. now apply perm_skip.
Qed.

Lemma insert_by_sorted (x : A) (l : list A) :
  StronglySorted (fun a b => (key a <= key b)%Q) l ->
  StronglySorted (fun a b => (key a <= key b)%Q) (Spec.insert_by before key x l).
Proof.
  induction 1 as [|y t Ht IH Hy]; simpl.
  - constructor; constructor.
  - destruct (before (key x) (key y)) eqn:E.
    + apply before_true in E. constructor; [now constructor|].
      constructor; [exact E|].
      eapply Forall_impl; [|exact Hy]. intros z Hz. cbv beta in *.
      eapply Qle_trans; eassumption.
    + apply before_false in E. constructor; [exact IH|].
      rewrite <- (insert_by_perm x t). now constructor.
Qed.

Lemma insertion_sort_perm (l : list A) :
  Permutation l (Spec.insertion_sort before A key l).
Proof.
  unfold Spec.insertion_sort.
  induction l as [|x t IH]; simpl; [reflexivity|].
  rewrite <- insert_by_perm. now apply perm_skip.
Qed.

Lemma insertion_sort_sorted (l : list A) :
  StronglySorted (fun a b => (key a <= key b)%Q)
                 (Spec.insertion_sort before A key l).
Proof.
  unfold Spec.insertion_sort.
  induction l as [|x t IH]; simpl; [constructor|].
  now apply insert_by_sorted.
Qed.
End InsertionSort.

Lemma stable_sort_contract : sorts_ascending Spec.stable_sort.
Proof.
  intros A key l. split.
  - apply insertion_sort_perm.
  - apply insertion_sort_sorted.
    + intros a b H. now apply Qle_bool_iff.
    + intros a b H. apply Qlt_le_weak, Qnot_le_lt.
      rewrite <- Qle_bool_iff. congruence.
Qed.

Lemma StronglySorted_snoc {A} (R : A -> A -> Prop) (l : list A) (x : A) :
  StronglySorted R l -> Forall (fun y => R y x) l -> StronglySorted R (l ++ [x]).
Proof.
  induction 1 as [|y t Ht IH Hy]; intros Hx; simpl.
  - constructor; constructor.
  - inversion Hx; subst. constructor; [now apply IH|].
    apply Forall_app. split; [assumption|]. now constructor.
Qed.

Lemma StronglySorted_rev {A} (R : A -> A -> Prop) (l : list A) :
  StronglySorted R l -> StronglySorted (fun a b => R b a) (rev l).
Proof.
  induction 1 as [|y t Ht IH Hy]; simpl; [constructor|].
  apply StronglySorted_snoc; [exact IH|].
  apply Forall_rev. exact Hy.
Qed.

Lemma StronglySorted_app_inv {A} (R : A -> A -> Prop) (l1 l2 : list A) :
  StronglySorted R (l1 ++ l2) ->
  StronglySorted R l1 /\ Forall (fun a => Forall (R a) l2) l1.
Proof.
  induction l1 as [|x t IH]; simpl; intros H.
  - split; constructor.
  - inversion H as [|? ? Ht Hx]; subst.
    destruct (IH Ht) as [S1 F1].
    apply Forall_app in Hx. destruct Hx as [Hx1 Hx2].
    split; constructor; assumption.
Qed.

Lemma sort_values_desc_sorted (alg : sort_algorithm) {A} (key : A -> Q) (l : list A) :
  sorts_ascending alg ->
  Permutation l (sort_values_desc alg key l) /\
  StronglySorted (fun a b => (key b <= key a)%Q) (sort_values_desc alg key l).
Proof.
  intros H. unfold sort_values_desc.
  destruct (H A key (rev l)) as [P S]. split.
  - rewrite <- Permutation_rev, <- P. apply Permutation_rev.
  - now apply StronglySorted_rev in S.
Qed.

(** C7, as the scripts have it. Whatever sorting routine meets the contract
    of [sort_values], the top-products table has at most 15 rows, in
    decreasing order of sales; with the groups left out it makes up all the
    (category, product) groups, none of those left out sells more than a row
    kept, and each row carries the summed total_aed of its group and its
    summed quantity, an int64 sum.  The order of rows with equal sales is
    left to the routine. *)
Theorem top_products_sorted (alg : sort_algorithm) (df : list Transaction) :
  sorts_ascending alg ->
  (List.length (App.top_products alg df) <= 15)%nat /\
  StronglySorted (fun a b => (sales b <= sales a)%Q) (App.top_products alg df) /\
  (exists rest,
      Permutation (App.top_products alg df ++ rest) (App.product_groups df) /\
      Forall (fun a => Forall (fun b => (sales b <= sales a)%Q) rest)
             (App.top_products alg df)) /\
  (forall g, In g (App.top_products alg df) ->
     let group := filter (fun r => (String.eqb (category r) (p_category g)
                                    && String.eqb (product r) (p_product g))%bool) df in
     sales g = sum (map total_aed group) /\ qty g = sumZ (map quantity group)).
Proof.
  intros H. unfold App.top_products, head.
  destruct (sort_values_desc_sorted alg sales (App.product_groups df) H) as [P S].
  set (sorted := sort_values_desc alg sales (App.product_groups df)) in *.
  rewrite <- (firstn_skipn 15 sorted) in S.
  apply StronglySorted_app_inv in S. destruct S as [S1 S2].
  split; [apply firstn_le_length|].
  split; [exact S1|].
  split.
  - exists (skipn 15 sorted). split; [|exact S2].
    rewrite firstn_skipn. now symmetry.
  - intros g Hg.
    assert (Hg' : In g sorted).
    { rewrite <- (firstn_skipn 15 sorted). apply in_or_app. now left. }
    clear Hg. rename Hg' into Hg.
    apply (Permutation_in _ (Permutation_sym P)) in Hg.
    unfold App.product_groups, groupby in Hg.
    rewrite map_map in Hg. apply in_map_iff in Hg.
    destruct Hg as (k & <- & _). split; reflexivity.
Qed.

(** A view of three rows in three groups: TV, then Milk and Rice. *)
Lemma top_products_sorted_witness :
  sorts_ascending Spec.stable_sort /\
  map p_product (App.top_products Spec.stable_sort
                                  [Samples.milk; Samples.rice; Samples.tv])
  = ["TV"; "Milk"; "Rice"] /\
  (List.length (App.top_products Spec.stable_sort
                                 [Samples.milk; Samples.rice; Samples.tv]) <= 15)%nat /\
  StronglySorted (fun a b => (sales b <= sales a)%Q)
                 (App.top_products Spec.stable_sort
                                   [Samples.milk; Samples.rice; Samples.tv]).
Proof.
  split; [exact stable_sort_contract|].
  split; [reflexivity|].
  pose proof (top_products_sorted Spec.stable_sort
                [Samples.milk; Samples.rice; Samples.tv] stable_sort_contract)
    as (H1 & H2 & _).
  split; assumption.
Defined.

(** C7 as stated fails: of three hundred products, forty-two sell 70 AED,
    the highest amount, P006 first among them.  The routine of
    [kind='quicksort'] partitions the rows and in doing so exchanges rows of
    equal sales: the fifteen rows shown all sell 70 AED, but they are not
    the first fifteen of the forty-two, and they do not come in the order
    of the groups. *)
Lemma top_products_ties_not_stable :
  ~ (forall df : list Transaction,
       Spec.stable_ties (App.product_groups df)
                        (App.top_products Numpy.quicksort df)).
Proof.
  intros H.
  specialize (H Samples.three_hundred_products (70 # 1)%Q).
  destruct H as [rest H]. vm_compute in H. discriminate.
Qed.

(** ** Distinct values *)

Section Uniq.
Variable K : Type.
Variable eqb : K -> K -> bool.
Hypothesis eqb_eq : forall a b, eqb a b = true <-> a = b.

Lemma In_uniq (x : K) (l : list K) : In x (uniq eqb l) <-> In x l.
Proof.
  induction l as [|a t IH]; simpl; [reflexivity|].
  rewrite filter_In, IH. split.
  - intros [H|[H _]]; auto.
  - intros [H|H]; [now left|].
    destruct (eqb x a) eqn:E; [left; symmetry; now apply eqb_eq|now right].
Qed.

Lemma NoDup_uniq (l : list K) : NoDup (uniq eqb l).
Proof.
  induction l as [|a t IH]; simpl; constructor.
  - rewrite filter_In. intros [_ H].
    assert (E : eqb a a = true) by now apply eqb_eq.
    rewrite E in H. discriminate.
  - now apply NoDup_filter.
Qed.

Lemma length_uniq_same (l1 l2 : list K) :
  (forall x, In x l1 <-> In x l2) ->
  List.length (uniq eqb l1) = List.length (uniq eqb l2).
Proof.
  intros H. apply Permutation_length, NoDup_Permutation; try apply NoDup_uniq.
  intros x. now rewrite !In_uniq.
Qed.

Lemma length_without (x : K) (u : list K) :
  NoDup u ->
  (List.length (filter (fun y => negb (eqb y x)) u)
   + (if existsb (eqb x) u then 1 else 0))%nat = List.length u.
Proof.
  induction 1 as [|y u Hy Hu IH]; simpl; [reflexivity|].
  destruct (eqb y x) eqn:E1; simpl.
  - apply eqb_eq in E1. subst y.
    assert (E : eqb x x = true) by now apply eqb_eq.
    rewrite E. simpl.
    assert (Ex : existsb (eqb x) u = false).
    { apply Bool.not_true_is_false. rewrite existsb_exists.
      intros (z & Hz & Ez). apply eqb_eq in Ez. now subst z. }
    rewrite Ex in IH. lia.
  - assert (E2 : eqb x y = false).
    { apply Bool.not_true_is_false. intros E. apply eqb_eq in E. subst y.
      assert (E : eqb x x = true) by now apply eqb_eq. congruence. }
    rewrite E2. simpl. lia.
Qed.

Lemma existsb_uniq (x : K) (l : list K) :
  existsb (eqb x) (uniq eqb l) = existsb (eqb x) l.
Proof.
  apply Bool.eq_iff_eq_true. rewrite !existsb_exists.
  split; intros (y & Hy & E); exists y; split; try assumption; now apply In_uniq.
Qed.

(** One more value adds one to the number of distinct values unless it
    is there already. *)
Lemma length_uniq_middle (x : K) (l1 l2 : list K) :
  List.length (uniq eqb (l1 ++ x :: l2))
  = (List.length (uniq eqb (l1 ++ l2))
     + (if existsb (eqb x) (l1 ++ l2) then 0 else 1))%nat.
Proof.
  rewrite (length_uniq_same (l1 ++ x :: l2) (x :: l1 ++ l2)).
  - simpl. pose proof (length_without x (uniq eqb (l1 ++ l2)) (NoDup_uniq _)) as H.
    rewrite existsb_uniq in H.
    destruct (existsb (eqb x) (l1 ++ l2)); lia.
  - intros y. simpl. rewrite !in_app_iff. simpl. tauto.
Qed.

Lemma length_uniq_app_le (l1 l2 : list K) :
  (List.length (uniq eqb (l1 ++ l2))
   <= List.length (uniq eqb l1) + List.length (uniq eqb l2))%nat.
Proof.
  rewrite <- length_app. apply NoDup_incl_length; [apply NoDup_uniq|].
  intros x. rewrite in_app_iff, !In_uniq, in_app_iff. tauto.
Qed.

Lemma length_uniq_disjoint (l l1 l2 : list K) :
  (forall x, In x l <-> In x l1 \/ In x l2) ->
  (forall x, In x l1 -> In x l2 -> False) ->
  List.length (uniq eqb l)
  = (List.length (uniq eqb l1) + List.length (uniq eqb l2))%nat.
Proof.
  intros Hl Hd. rewrite <- length_app.
  apply Permutation_length, NoDup_Permutation.
  - apply NoDup_uniq.
  - apply NoDup_app; try apply NoDup_uniq.
    intros x H1 H2. rewrite In_uniq in H1. rewrite In_uniq in H2. eauto.
  - intros x. rewrite in_app_iff, !In_uniq. apply Hl.
Qed.

Lemma length_uniq_cover (l l1 l2 : list K) :
  (forall x, In x l -> In x l1 \/ In x l2) ->
  (List.length (uniq eqb l)
   <= List.length (uniq eqb l1) + List.length (uniq eqb l2))%nat.
Proof.
  intros Hl. rewrite <- length_app.
  apply NoDup_incl_length; [apply NoDup_uniq|].
  intros x. rewrite in_app_iff, !In_uniq. apply Hl.
Qed.
End Uniq.

Lemma sort_keys_perm {K} (leb : K -> K -> bool) (ks : list K) :
  Permutation (sort_keys leb ks) ks.
Proof.
  unfold sort_keys. induction ks as [|k t IH]; simpl; [reflexivity|].
  transitivity (k :: fold_right (insert_key leb) [] t); [|now apply perm_skip].
  generalize (fold_right (insert_key leb) [] t). clear.
  intros l. induction l as [|h l IH]; simpl; [reflexivity|].
  destruct (leb k h); [reflexivity|].
  rewrite IH. apply perm_swap.
Qed.

(** ** Rows outside the age bins *)

Lemma combine_map_self {A B} (f : A -> B) (l : list A) :
  combine l (map f l) = map (fun x => (x, f x)) l.
Proof. induction l; simpl; congruence. Qed.

Lemma sum_app (a b : list Q) : (sum (a ++ b) == sum a + sum b)%Q.
Proof.
  induction a as [|x a IH]; simpl.
  - unfold sum. simpl. ring.
  - unfold sum in *. simpl. rewrite IH. ring.
Qed.

Lemma string_eqb_eq (a b : string) : String.eqb a b = true <-> a = b.
Proof. apply String.eqb_eq. Qed.

(** C10. A row whose age is below 18 or above 80 gets no age group: the
    age-distribution table is the same as without the row, while total_sales
    grows by its total_aed, the transaction count counts its transaction_id
    (one more unless another row has the same id), and avg_basket is taken
    over all rows, this one included. *)
Theorem age_out_of_range_row (observed : bool) (df1 df2 : list Transaction)
        (r : Transaction) :
  (age r < 18 \/ 80 < age r)%Q ->
  App.age_group r = None /\
  App.age_dist observed (df1 ++ r :: df2) = App.age_dist observed (df1 ++ df2) /\
  (App.total_sales (df1 ++ r :: df2)
   == App.total_sales (df1 ++ df2) + total_aed r)%Q /\
  App.total_transactions (df1 ++ r :: df2)
  = (App.total_transactions (df1 ++ df2)
     + (if isin (map transaction_id (df1 ++ df2)) (transaction_id r)
        then 0 else 1))%nat /\
  App.avg_basket (df1 ++ r :: df2)
  = Some (App.total_sales (df1 ++ r :: df2)
          / inject_Z (Z.of_nat (S (List.length (df1 ++ df2)))))%Q.
Proof.
  intros Hage.
  assert (Hnone : App.age_group r = None) by now apply age_group_outside.
  split; [exact Hnone|]. split; [|split; [|split]].
  - unfold App.age_dist, App.age_dist_of, groupby_categorical.
    rewrite !combine_map_self.
    assert (E : forall c : string,
               filter (fun x : Transaction * option string =>
                         match snd x with
                         | Some c' => String.eqb c' c
                         | None => false
                         end)
                      (map (fun x => (x, App.age_group x)) (df1 ++ r :: df2))
               = filter (fun x : Transaction * option string =>
                           match snd x with
                           | Some c' => String.eqb c' c
                           | None => false
                           end)
                        (map (fun x => (x, App.age_group x)) (df1 ++ df2))).
    { intros c. rewrite !map_app, !filter_app. simpl. now rewrite Hnone. }
    rewrite (map_ext _ _ (fun c => f_equal (pair c) (E c))). reflexivity.
  - unfold App.total_sales. rewrite !map_app, !sum_app. simpl.
    unfold sum. simpl. ring.
  - unfold App.total_transactions, nunique, unique, isin.
    rewrite !map_app. simpl.
    rewrite (length_uniq_middle _ String.eqb string_eqb_eq).
    reflexivity.
  - unfold App.avg_basket, App.total_sales, mean.
    assert (L : List.length (map total_aed (df1 ++ r :: df2))
                = S (List.length (df1 ++ df2))).
    { rewrite length_map, !length_app. simpl. lia. }
    destruct (map total_aed (df1 ++ r :: df2)) as [|x xs] eqn:E; [discriminate|].
    now rewrite L.
Qed.

Lemma age_out_of_range_row_witness :
  (age Samples.tv < 18 \/ 80 < age Samples.tv)%Q /\
  App.age_group Samples.tv = None /\
  App.age_dist false [Samples.milk; Samples.tv; Samples.rice]
  = App.age_dist false [Samples.milk; Samples.rice].
Proof.
  assert (H : (age Samples.tv < 18 \/ 80 < age Samples.tv)%Q) by (right; reflexivity).
  split; [exact H|].
  pose proof (age_out_of_range_row false [Samples.milk] [Samples.rice] Samples.tv H)
    as (H1 & H2 & _).
  split; [exact H1|exact H2].
Defined.

(** ** Loyalty impact *)

Lemma bool_eqb_eq (a b : bool) : Bool.eqb a b = true <-> a = b.
Proof. destruct a, b; simpl; split; congruence. Qed.

Lemma list_sum_bool_keys (f : bool -> nat) (ks : list bool) :
  NoDup ks -> (forall k, ~ In k ks -> f k = O) ->
  list_sum (map f ks) = (f false + f true)%nat.
Proof.
  intros Hnd H0.
  assert (P : Permutation ks (filter (fun b => existsb (Bool.eqb b) ks) [false; true])).
  { apply NoDup_Permutation; [assumption| |].
    - apply NoDup_filter.
      constructor; [simpl; intros [H|[]]; discriminate|].
      constructor; [simpl; tauto|constructor].
    - intros b. rewrite filter_In, existsb_exists. split.
      + intros Hb. split; [destruct b; simpl; auto|].
        exists b. split; [assumption|now destruct b].
      + intros [_ (c & Hc & E)]. apply (proj1 (bool_eqb_eq _ _)) in E. now subst. }
  rewrite (Permutation_map f P). simpl.
  assert (In_ex : forall b, existsb (Bool.eqb b) ks = false -> f b = O).
  { intros b E. apply H0. intros Hb.
    assert (existsb (Bool.eqb b) ks = true).
    { apply existsb_exists. exists b. split; [assumption|now destruct b]. }
    congruence. }
  destruct (existsb (Bool.eqb false) ks) eqn:E1;
    destruct (existsb (Bool.eqb true) ks) eqn:E2; simpl;
    rewrite ?(In_ex _ E1), ?(In_ex _ E2); lia.
Qed.

Lemma In_dropna {K} (k : K) (xs : list (option K)) :
  In k (dropna xs) <-> In (Some k) xs.
Proof.
  unfold dropna. rewrite in_flat_map. split.
  - intros ([y|] & Hy & Hk); simpl in Hk; [|contradiction].
    destruct Hk as [->|[]]. assumption.
  - intros H. exists (Some k). split; [assumption|now left].
Qed.

Lemma loyal_transactions_sum (df : list Transaction) :
  list_sum (map loyal_transactions (App.loyal df))
  = (nunique (map transaction_id (Spec.loyalty_rows false df))
     + nunique (map transaction_id (Spec.loyalty_rows true df)))%nat.
Proof.
  unfold App.loyal, groupby. rewrite !map_map. cbn [loyal_transactions snd].
  rewrite (Permutation_map _ (sort_keys_perm bool_leb _)).
  apply (list_sum_bool_keys
           (fun k => nunique (map transaction_id (Spec.loyalty_rows k df)))).
  - apply NoDup_uniq, bool_eqb_eq.
  - intros k Hk. rewrite (In_uniq _ _ bool_eqb_eq), In_dropna, in_map_iff in Hk.
    assert (E : Spec.loyalty_rows k df = []).
    { unfold Spec.loyalty_rows.
      destruct (filter _ df) as [|r l] eqn:Ef; [reflexivity|exfalso].
      assert (Hr : In r (r :: l)) by now left.
      rewrite <- Ef in Hr. apply filter_In in Hr. destruct Hr as [Hin Hp].
      apply Hk. exists r. split; [|assumption].
      destruct (has_loyalty r) as [b|]; [|discriminate].
      apply (proj1 (bool_eqb_eq _ _)) in Hp. now subst. }
    now rewrite E.
Qed.

(** C6, as the scripts have it. When has_loyalty is never missing, the
    per-group distinct transaction counts of the loyalty-impact table add up
    to at least the distinct transaction count of the view, and to exactly
    that count when no transaction_id occurs both on a member row and on a
    non-member row. *)
Theorem loyalty_counts_add_up (df : list Transaction) :
  (forall r, In r df -> has_loyalty r <> None) ->
  (App.total_transactions df
   <= list_sum (map loyal_transactions (App.loyal df)))%nat /\
  ((forall r1 r2, In r1 df -> In r2 df ->
                  transaction_id r1 = transaction_id r2 ->
                  has_loyalty r1 = has_loyalty r2) ->
   list_sum (map loyal_transactions (App.loyal df)) = App.total_transactions df).
Proof.
  intros Hnn. rewrite loyal_transactions_sum.
  unfold App.total_transactions, nunique, unique.
  assert (Hrows : forall b r, In r (Spec.loyalty_rows b df)
                              <-> In r df /\ has_loyalty r = Some b).
  { intros b r. unfold Spec.loyalty_rows. rewrite filter_In.
    destruct (has_loyalty r) as [k|]; [|intuition discriminate].
    rewrite bool_eqb_eq. intuition congruence. }
  assert (Hcover : forall x, In x (map transaction_id df) ->
                     In x (map transaction_id (Spec.loyalty_rows false df)) \/
                     In x (map transaction_id (Spec.loyalty_rows true df))).
  { intros x Hx. apply in_map_iff in Hx. destruct Hx as (r & <- & Hr).
    destruct (has_loyalty r) as [[|]|] eqn:E.
    - right. apply in_map, Hrows. now split.
    - left. apply in_map, Hrows. now split.
    - exfalso. now apply (Hnn r). }
  split.
  - apply (length_uniq_cover _ String.eqb string_eqb_eq). exact Hcover.
  - intros Hcons. symmetry.
    apply (length_uniq_disjoint _ String.eqb string_eqb_eq).
    + intros x. split; [apply Hcover|].
      intros [H|H]; apply in_map_iff in H; destruct H as (r & <- & Hr);
        apply Hrows in Hr; apply in_map; tauto.
    + intros x H1 H2.
      apply in_map_iff in H1. destruct H1 as (r1 & E1 & Hr1).
      apply in_map_iff in H2. destruct H2 as (r2 & E2 & Hr2).
      apply Hrows in Hr1. apply Hrows in Hr2.
      destruct Hr1 as [I1 L1]. destruct Hr2 as [I2 L2].
      assert (E : has_loyalty r1 = has_loyalty r2) by (apply Hcons; congruence).
      congruence.
Qed.

Lemma loyalty_counts_add_up_witness :
  (forall r, In r [Samples.milk; Samples.rice] -> has_loyalty r <> None) /\
  (App.total_transactions [Samples.milk; Samples.rice]
   <= list_sum (map loyal_transactions (App.loyal [Samples.milk; Samples.rice])))%nat.
Proof.
  assert (H : forall r, In r [Samples.milk; Samples.rice] -> has_loyalty r <> None).
  { intros r [<-|[<-|[]]]; discriminate. }
  split; [exact H|].
  apply (loyalty_counts_add_up [Samples.milk; Samples.rice] H).
Defined.

(** C6 as stated fails: transaction T1 has a member row and a non-member
    row, so it is counted in both groups and once in the KPI. *)
Lemma loyalty_counts_exceed_kpi :
  ~ (forall df : list Transaction,
        (forall r, In r df -> has_loyalty r <> None) ->
        list_sum (map loyal_transactions (App.loyal df)) = App.total_transactions df).
Proof.
  intros H.
  specialize (H [Samples.milk; Samples.milk_again]).
  assert (Hnn : forall r, In r [Samples.milk; Samples.milk_again] ->
                          has_loyalty r <> None).
  { intros r [<-|[<-|[]]]; discriminate. }
  specialize (H Hnn). vm_compute in H. discriminate.
Qed.

(** ** Budget against sales *)

Lemma pair_eqb_eq (a b : string * string) : pair_eqb a b = true <-> a = b.
Proof.
  destruct a as [a1 a2], b as [b1 b2]. unfold pair_eqb. simpl.
  rewrite Bool.andb_true_iff, !String.eqb_eq. split.
  - intros [-> ->]. reflexivity.
  - intros E. inversion E. now split.
Qed.

Lemma filter_map_comm {A B} (f : B -> bool) (h : A -> B) (l : list A) :
  filter f (map h l) = map h (filter (fun a => f (h a)) l).
Proof.
  induction l as [|a t IH]; simpl; [reflexivity|].
  destruct (f (h a)); simpl; now rewrite IH.
Qed.

(** Grouping a frame that carries a computed column is grouping the frame
    itself on the computation. *)
Lemma groupby_over_map {A B K} (eqb leb : K -> K -> bool) (key : B -> option K)
      (h : A -> B) (df : list A) :
  groupby eqb leb key (map h df)
  = map (fun g => (fst g, map h (snd g)))
        (groupby eqb leb (fun r => key (h r)) df).
Proof.
  unfold groupby. rewrite !map_map. cbn [fst snd].
  apply map_ext. intros k. now rewrite filter_map_comm.
Qed.

Lemma sales_month_cat_groups (df : list Transaction) :
  App.sales_month_cat df
  = map (fun g => (fst g, sum (map total_aed (snd g))))
        (groupby pair_eqb pair_leb
                 (fun r => Some (to_period_M_str (transaction_datetime r), category r))
                 df).
Proof.
  unfold App.sales_month_cat, App.sales_month_cat_of.
  rewrite combine_map_self, groupby_over_map, map_map. cbn [fst snd].
  apply map_ext. intros g. now rewrite map_map.
Qed.

Lemma new_sales_month_cat_groups (df : list Transaction) :
  NewApp.sales_month_cat df
  = map (fun g => (fst g, sum (map total_aed (snd g))))
        (groupby pair_eqb pair_leb
                 (fun r => Some (to_period_M_str (transaction_datetime r), category r))
                 df).
Proof.
  unfold NewApp.sales_month_cat. cbv zeta.
  rewrite combine_map_self, groupby_over_map, map_map. cbn [fst snd].
  apply map_ext. intros g. now rewrite map_map.
Qed.

Section Lookup.
Variable K : Type.
Variable eqb : K -> K -> bool.
Hypothesis eqb_eq : forall a b, eqb a b = true <-> a = b.
Variable V : Type.

Lemma eqb_same (a : K) : eqb a a = true.
Proof. now apply eqb_eq. Qed.

Lemma filter_key_absent (h : K -> V) (k0 : K) (ks : list K) :
  ~ In k0 ks -> filter (fun s => eqb k0 (fst s)) (map (fun k => (k, h k)) ks) = [].
Proof.
  induction ks as [|k t IH]; simpl; intros H; [reflexivity|].
  destruct (eqb k0 k) eqn:E.
  - apply eqb_eq in E. subst. tauto.
  - apply IH. tauto.
Qed.

(** In a table with one row per key, looking a key up finds its row, or
    nothing. *)
Lemma filter_key_unique (h : K -> V) (k0 : K) (ks : list K) :
  NoDup ks ->
  filter (fun s => eqb k0 (fst s)) (map (fun k => (k, h k)) ks)
  = if existsb (eqb k0) ks then [(k0, h k0)] else [].
Proof.
  induction 1 as [|k t Hk Ht IH]; simpl; [reflexivity|].
  destruct (eqb k0 k) eqn:E; simpl.
  - apply eqb_eq in E. subst k. now rewrite filter_key_absent.
  - exact IH.
Qed.
End Lookup.

Lemma group_of_absent_key {A K} (eqb : K -> K -> bool)
      (eqb_eq : forall a b, eqb a b = true <-> a = b)
      (key : A -> K) (k0 : K) (df : list A) :
  existsb (eqb k0) (map key df) = false ->
  filter (fun r => eqb (key r) k0) df = [].
Proof.
  intros H. induction df as [|r t IH]; simpl in *; [reflexivity|].
  apply Bool.orb_false_iff in H. destruct H as [H1 H2].
  destruct (eqb (key r) k0) eqn:E.
  - apply eqb_eq in E. rewrite E in H1.
    rewrite (proj2 (eqb_eq k0 k0) eq_refl) in H1. discriminate.
  - now apply IH.
Qed.

Lemma dropna_map_Some {A K} (key : A -> K) (df : list A) :
  dropna (map (fun r => Some (key r)) df) = map key df.
Proof.
  unfold dropna. induction df as [|r t IH]; simpl; [reflexivity|]. now rewrite IH.
Qed.

Lemma existsb_perm {K} (f : K -> bool) (l1 l2 : list K) :
  Permutation l1 l2 -> existsb f l1 = existsb f l2.
Proof.
  intros P. apply Bool.eq_iff_eq_true. rewrite !existsb_exists.
  split; intros (x & Hx & E); exists x; split; try assumption.
  - now apply (Permutation_in _ P).
  - now apply (Permutation_in _ (Permutation_sym P)).
Qed.

Lemma flat_map_singleton {A B} (F : A -> list B) (G : A -> B) (l : list A) :
  (forall a, F a = [G a]) -> flat_map F l = map G l.
Proof.
  intros H. induction l as [|a t IH]; simpl; [reflexivity|].
  now rewrite H, IH.
Qed.

(** The joined table has one row per budget row, in budget order. *)
Lemma merged_of_groups (A : list AdBudget) (df : list Transaction) :
  App.merged_of A (App.sales_month_cat df)
  = map (fun a =>
           mkMergedRow (ad_month a) (ad_category a) (fillna0 (ad_budget_aed a))
             (sum (map total_aed
                (filter (fun r =>
                           (String.eqb (to_period_M_str (transaction_datetime r))
                                       (ad_month a)
                            && String.eqb (category r) (ad_category a))%bool)
                        df)))) A.
Proof.
  unfold App.merged_of, merge_left.
  rewrite sales_month_cat_groups. unfold groupby.
  rewrite dropna_map_Some, map_map. cbn [fst snd].
  set (ks := sort_keys pair_leb _).
  set (h := fun x : string * string =>
              sum (map total_aed
                     (filter (fun r => pair_eqb
                                (to_period_M_str (transaction_datetime r), category r) x)
                             df))).
  assert (Hks : NoDup ks).
  { apply (Permutation_NoDup (Permutation_sym (sort_keys_perm _ _))).
    apply NoDup_uniq, pair_eqb_eq. }
  rewrite (flat_map_singleton _
             (fun a => (a, if existsb (pair_eqb (ad_month a, ad_category a)) ks
                           then Some ((ad_month a, ad_category a),
                                      h (ad_month a, ad_category a))
                           else None))).
  - rewrite map_map. apply map_ext. intros a. cbn [fst snd].
    f_equal.
    destruct (existsb _ ks) eqn:E; cbn [option_map fillna0 snd]; [reflexivity|].
    unfold ks in E.
    rewrite (existsb_perm _ _ _ (sort_keys_perm _ _)) in E.
    rewrite (existsb_uniq _ pair_eqb pair_eqb_eq) in E.
    pose proof (group_of_absent_key pair_eqb pair_eqb_eq
                  (fun r => (to_period_M_str (transaction_datetime r), category r))
                  (ad_month a, ad_category a) df E) as G.
    unfold pair_eqb in G. cbn [fst snd] in G. rewrite G. reflexivity.
  - intros a. rewrite (filter_key_unique _ pair_eqb pair_eqb_eq _ h _ ks Hks).
    now destruct (existsb _ ks).
Qed.

Lemma combine_map_map {A B C} (f : A -> B) (g : A -> C) (l : list A) :
  combine (map f l) (map g l) = map (fun x => (f x, g x)) l.
Proof. induction l; simpl; congruence. Qed.

Lemma new_merged_same (A : list AdBudget) (df : list Transaction) :
  NewApp.merged A df = App.merged A df.
Proof.
  unfold NewApp.merged, App.merged, App.merged_of. cbv zeta.
  rewrite new_sales_month_cat_groups, <- sales_month_cat_groups.
  rewrite combine_map_self, combine_map_map, map_map.
  apply map_ext. intros p. reflexivity.
Qed.

(** C2, as the scripts have it. In both scripts the joined table has
    exactly one row per row of the ad-budget table, in that table's order:
    it carries the budget (0 when the budget is missing) and the summed
    total_aed of the view's rows of that month and category, which is 0 when
    there are none.  A month and category that only the transactions have
    gets no row. *)
Theorem merged_one_row_per_budget_row (A : list AdBudget) (df : list Transaction) :
  App.merged A df = map (Spec.budget_row df) A /\
  NewApp.merged A df = map (Spec.budget_row df) A /\
  map (fun m => (m_month m, m_category m)) (App.merged A df)
  = map (fun a => (ad_month a, ad_category a)) A /\
  (forall a,
      (forall r, In r df ->
                 ~ (to_period_M_str (transaction_datetime r) = ad_month a /\
                    category r = ad_category a)) ->
      m_total_aed (Spec.budget_row df a) = (0 # 1)%Q).
Proof.
  assert (E : App.merged A df = map (Spec.budget_row df) A).
  { unfold App.merged. apply merged_of_groups. }
  split; [exact E|]. split; [now rewrite new_merged_same|]. split.
  - rewrite E, map_map. reflexivity.
  - intros a Hno. unfold Spec.budget_row, Spec.matching_sales. cbn [m_total_aed].
    assert (F : filter (fun r =>
                  (String.eqb (to_period_M_str (transaction_datetime r)) (ad_month a)
                   && String.eqb (category r) (ad_category a))%bool) df = []).
    { destruct (filter _ df) as [|r l] eqn:Ef; [reflexivity|exfalso].
      assert (Hr : In r (r :: l)) by now left.
      rewrite <- Ef in Hr. apply filter_In in Hr. destruct Hr as [Hin Hp].
      apply Bool.andb_true_iff in Hp. destruct Hp as [H1 H2].
      apply String.eqb_eq in H1. apply String.eqb_eq in H2.
      apply (Hno r Hin). now split. }
    now rewrite F.
Qed.

(** The example of the specification: a budget of 1000 for groceries in
    2025-01 and no transaction at all. *)
Example merged_budget_without_sales :
  App.merged [Samples.january_groceries] []
  = [mkMergedRow "2025-01" "Grocery" (1000 # 1) (0 # 1)].
Proof. reflexivity. Qed.

(** C2 as stated fails: groceries sold in January 2025 with no budget row
    for them are in the monthly sums and have no row in the joined table. *)
Lemma merged_drops_sales_without_budget :
  ~ (forall (A : list AdBudget) (df : list Transaction) (k : string * string),
        In k (map (fun a => (ad_month a, ad_category a)) A) \/
        In k (map fst (App.sales_month_cat df)) ->
        In k (map (fun m => (m_month m, m_category m)) (App.merged A df))).
Proof.
  intros H.
  specialize (H [] [Samples.milk] ("2025-01", "Grocery")).
  apply H. right. vm_compute. now left.
Qed.

(** ** Export *)

Lemma text_records_length (render : Transaction -> DataFrame.Cells)
      (rs : list Transaction) (cols : list (list (option string))) :
  List.length (DataFrame.text_records render rs cols) = List.length rs.
Proof.
  revert cols. induction rs as [|r t IH]; intros cols; simpl; [reflexivity|].
  now rewrite IH.
Qed.

Lemma text_records_width (render : Transaction -> DataFrame.Cells)
      (rs : list Transaction) (cols : list (list (option string))) :
  Forall (fun r => List.length r = (12 + List.length cols)%nat)
         (DataFrame.text_records render rs cols).
Proof.
  revert cols. induction rs as [|r t IH]; intros cols; simpl; constructor.
  - cbn [List.length]. rewrite length_map. reflexivity.
  - specialize (IH (map (@tl _) cols)). now rewrite length_map in IH.
Qed.

Lemma cut_label (bins : list Q) (labels : list string) (lowest : bool)
      (x : Q) (c : string) :
  cut bins labels lowest x = Some c -> In c labels.
Proof.
  unfold cut. cbv zeta.
  destruct (Nat.eqb _ (List.length bins) || Nat.eqb _ 0)%bool; [discriminate|].
  apply nth_error_In.
Qed.

(** The text of an age-group cell, a label or nothing, holds no carriage
    return. *)
Lemma age_group_text_safe (r : Transaction) :
  Csv.cr_safe (DataFrame.cell_text (App.age_group r)) = true.
Proof.
  destruct (App.age_group r) as [c|] eqn:E; [|reflexivity].
  apply cut_label in E.
  assert (H : forallb Csv.cr_safe App.age_labels = true) by reflexivity.
  rewrite forallb_forall in H. now apply H.
Qed.

Lemma text_records_safe (render : Transaction -> DataFrame.Cells)
      (rs : list Transaction) :
  forallb (fun r => forallb Csv.cr_safe (DataFrame.cells_list (render r))) rs = true ->
  forallb (forallb Csv.cr_safe)
          (DataFrame.text_records render rs [map App.age_group rs]) = true.
Proof.
  induction rs as [|r rs IH]; intros H; [reflexivity|].
  cbn [forallb] in H. apply Bool.andb_true_iff in H. destruct H as [H1 H2].
  cbn [DataFrame.text_records map hd tl forallb].
  rewrite forallb_app, H1. cbn [forallb].
  rewrite age_group_text_safe. cbn [andb].
  exact (IH H2).
Qed.

(** The run ends with the frame of the export in the store: the filtered
    view with the age-group column that line 55 added to it. *)
Lemma main_frame (alg : sort_algorithm) (observed : bool)
      (render : Transaction -> DataFrame.Cells) (fs : FilterState)
      (h : Store.Heap) (transactions ad_budget : Store.loc)
      (T : list Transaction) (A : list AdBudget) :
  nth_error h transactions = Some (Store.OFrame (DataFrame.mkFrame T [])) ->
  nth_error h ad_budget = Some (Store.OAdBudget A) ->
  exists fresh,
    App.main alg observed render fs transactions ad_budget h
    = Some (App.outputs alg observed render T A fs, h ++ fresh) /\
    In (Store.OFrame (App.export_frame T fs)) fresh.
Proof.
  intros HT HA.
  cut (forall h0, h0 = h ++ [] -> exists fresh,
          App.main alg observed render fs transactions ad_budget h0
          = Some (App.outputs alg observed render T A fs, h ++ fresh) /\
          In (Store.OFrame (App.export_frame T fs)) fresh).
  { intros Hc. apply Hc. now rewrite app_nil_r. }
  intros h0 ->.
  unfold App.main, App.outputs, App.export_frame, App.filtered. cbv zeta.
  destruct (loyalty_filter fs);
    unfold Store.copy, Store.bind; cbv beta;
    rewrite (load_old _ _ _ _ HT); run_store;
    rewrite (load_old _ _ _ _ HA); run_store;
    eexists; (split; [reflexivity|]);
    cbn [In]; repeat (first [left; reflexivity | right]).
Qed.

(** C5, as the scripts have it. The text offered for download is written
    from the frame [df] as it stands at line 121: the filtered view with
    the age_group column that line 55 added to it.  When no cell text holds
    a carriage return outside quotes, the text read back has one row per
    row of that frame and the same column names, age_group included. *)
Theorem export_round_trip (alg : sort_algorithm) (observed : bool)
        (render : Transaction -> DataFrame.Cells) (fs : FilterState)
        (h : Store.Heap) (transactions ad_budget : Store.loc)
        (T : list Transaction) (A : list AdBudget) :
  nth_error h transactions = Some (Store.OFrame (DataFrame.mkFrame T [])) ->
  nth_error h ad_budget = Some (Store.OAdBudget A) ->
  forallb (fun r => forallb Csv.cr_safe (DataFrame.cells_list (render r)))
          (App.filtered T fs) = true ->
  exists o h' t,
    App.main alg observed render fs transactions ad_budget h = Some (o, h') /\
    In (Store.OFrame (App.export_frame T fs)) h' /\
    DataFrame.rows (App.export_frame T fs) = App.filtered T fs /\
    Csv.read_csv (App.out_csv o) = Some t /\
    List.length (Csv.records t)
    = List.length (DataFrame.rows (App.export_frame T fs)) /\
    Csv.header t = DataFrame.columns (App.export_frame T fs).
Proof.
  intros HT HA Hsafe.
  destruct (main_frame alg observed render fs h transactions ad_budget T A HT HA)
    as (fresh & Hrun & Hin).
  exists (App.outputs alg observed render T A fs), (h ++ fresh).
  exists (DataFrame.to_text render (App.export_frame T fs)).
  split; [exact Hrun|].
  split; [apply in_or_app; now right|].
  split; [reflexivity|].
  cbn [App.out_csv App.outputs].
  split; [|split].
  - apply CsvFacts.read_csv_to_csv.
    + discriminate.
    + exact (text_records_width render (App.filtered T fs)
               [map App.age_group (App.filtered T fs)]).
    + reflexivity.
    + now apply text_records_safe.
  - cbn [DataFrame.to_text Csv.records DataFrame.rows App.export_frame].
    apply text_records_length.
  - reflexivity.
Qed.

Lemma export_round_trip_witness :
  exists o h' t,
    App.main Spec.stable_sort false Samples.render Samples.year_2025 0%nat 1%nat
             Samples.store = Some (o, h') /\
    In (Store.OFrame (App.export_frame [Samples.milk; Samples.rice; Samples.tv]
                                       Samples.year_2025)) h' /\
    DataFrame.rows (App.export_frame [Samples.milk; Samples.rice; Samples.tv]
                                     Samples.year_2025)
    = App.filtered [Samples.milk; Samples.rice; Samples.tv] Samples.year_2025 /\
    Csv.read_csv (App.out_csv o) = Some t /\
    List.length (Csv.records t)
    = List.length (DataFrame.rows
                     (App.export_frame [Samples.milk; Samples.rice; Samples.tv]
                                       Samples.year_2025)) /\
    Csv.header t
    = DataFrame.columns (App.export_frame [Samples.milk; Samples.rice; Samples.tv]
                                          Samples.year_2025).
Proof.
  apply (export_round_trip Spec.stable_sort false Samples.render Samples.year_2025
           Samples.store 0%nat 1%nat
           [Samples.milk; Samples.rice; Samples.tv] [Samples.january_groceries]);
    reflexivity.
Defined.

(** C5 as stated fails: a product name with a carriage return in it is
    written without quotes, and the reader takes the carriage return for
    the end of the row.  The frame in the store has one row, the text read
    back has two. *)
Lemma export_splits_row_at_carriage_return :
  exists o h' t,
    App.main Spec.stable_sort false Samples.render Samples.year_2025 0%nat 1%nat
             Samples.basmati_store = Some (o, h') /\
    In (Store.OFrame (App.export_frame [Samples.basmati] Samples.year_2025)) h' /\
    Csv.read_csv (App.out_csv o) = Some t /\
    List.length (DataFrame.rows (App.export_frame [Samples.basmati] Samples.year_2025))
    = 1%nat /\
    List.length (Csv.records t) = 2%nat.
Proof.
  destruct (main_frame Spec.stable_sort false Samples.render Samples.year_2025
              Samples.basmati_store 0%nat 1%nat
              [Samples.basmati] [Samples.january_groceries] eq_refl eq_refl)
    as (fresh & Hrun & Hin).
  eexists. eexists. eexists.
  split; [exact Hrun|].
  split; [apply in_or_app; now right|].
  split; [vm_compute; reflexivity|].
  split; reflexivity.
Qed.

(** ** Runs of the script *)

(** C8. A run of the script ends, and its outputs (the KPIs as printed, the
    seven tables, the export) are one fixed function of the transaction
    table, the ad-budget table and the filter state: two runs on equal
    tables give equal outputs whatever else the stores hold.  A run only
    adds objects to the store: every object that was there, the loaded
    tables among them, is unchanged, and a second run on the store the first
    one left gives the same outputs again. *)
Theorem aggregation_is_a_function (alg : sort_algorithm) (observed : bool)
        (render : Transaction -> DataFrame.Cells) (fs : FilterState)
        (h1 h2 : Store.Heap) (tx1 ad1 tx2 ad2 : Store.loc)
        (T : list Transaction) (A : list AdBudget) :
  nth_error h1 tx1 = Some (Store.OFrame (DataFrame.mkFrame T [])) ->
  nth_error h1 ad1 = Some (Store.OAdBudget A) ->
  nth_error h2 tx2 = Some (Store.OFrame (DataFrame.mkFrame T [])) ->
  nth_error h2 ad2 = Some (Store.OAdBudget A) ->
  exists fresh1 fresh2 fresh3,
    App.main alg observed render fs tx1 ad1 h1
    = Some (App.outputs alg observed render T A fs, h1 ++ fresh1) /\
    App.main alg observed render fs tx2 ad2 h2
    = Some (App.outputs alg observed render T A fs, h2 ++ fresh2) /\
    (forall l o, nth_error h1 l = Some o -> nth_error (h1 ++ fresh1) l = Some o) /\
    App.main alg observed render fs tx1 ad1 (h1 ++ fresh1)
    = Some (App.outputs alg observed render T A fs, (h1 ++ fresh1) ++ fresh3).
Proof.
  intros HT1 HA1 HT2 HA2.
  destruct (main_run alg observed render fs h1 tx1 ad1 T A HT1 HA1) as [f1 R1].
  destruct (main_run alg observed render fs h2 tx2 ad2 T A HT2 HA2) as [f2 R2].
  assert (Keep : forall l o, nth_error h1 l = Some o ->
                             nth_error (h1 ++ f1) l = Some o).
  { intros l o H. rewrite nth_error_app1; [exact H|].
    apply nth_error_Some. congruence. }
  destruct (main_run alg observed render fs (h1 ++ f1) tx1 ad1 T A
                     (Keep _ _ HT1) (Keep _ _ HA1)) as [f3 R3].
  exists f1, f2, f3. repeat split; assumption.
Qed.

Lemma aggregation_is_a_function_witness :
  exists fresh1 fresh2 fresh3,
    App.main Spec.stable_sort false Samples.render Samples.year_2025 0%nat 1%nat Samples.store
    = Some (App.outputs Spec.stable_sort false Samples.render
                        [Samples.milk; Samples.rice; Samples.tv]
                        [Samples.january_groceries] Samples.year_2025,
            Samples.store ++ fresh1) /\
    App.main Spec.stable_sort false Samples.render Samples.year_2025 0%nat 1%nat Samples.store
    = Some (App.outputs Spec.stable_sort false Samples.render
                        [Samples.milk; Samples.rice; Samples.tv]
                        [Samples.january_groceries] Samples.year_2025,
            Samples.store ++ fresh2) /\
    (forall l o, nth_error Samples.store l = Some o ->
                 nth_error (Samples.store ++ fresh1) l = Some o) /\
    App.main Spec.stable_sort false Samples.render Samples.year_2025 0%nat 1%nat
             (Samples.store ++ fresh1)
    = Some (App.outputs Spec.stable_sort false Samples.render
                        [Samples.milk; Samples.rice; Samples.tv]
                        [Samples.january_groceries] Samples.year_2025,
            (Samples.store ++ fresh1) ++ fresh3).
Proof.
  apply (aggregation_is_a_function Spec.stable_sort false Samples.render
           Samples.year_2025 Samples.store Samples.store 0%nat 1%nat 0%nat 1%nat
           [Samples.milk; Samples.rice; Samples.tv] [Samples.january_groceries]);
    reflexivity.
Defined.

(** * Further properties of the scripts *)

(** ** The filter *)

(** X1. A date range whose end lies before its start is not rejected: the
    filter runs and keeps no row. *)
Theorem filtered_reversed_range (T : list Transaction) (fs : FilterState) :
  date_end fs < date_start fs -> App.filtered T fs = [].
Proof.
  intros Hlt. rewrite filtered_as_filter.
  induction T as [|r T IH]; [reflexivity|]. simpl.
  destruct (Spec.passesb fs r) eqn:E; [exfalso|exact IH].
  apply passesb_passes in E. destruct E as [(t & _ & Hr) _].
  unfold ns_per_day in Hr. nia.
Qed.

Lemma filtered_reversed_range_witness :
  2 < 5 /\
  App.filtered [Samples.milk] (mkFilterState 5 2 ["Dubai"] ["Grocery"] ["F"] All) = [].
Proof.
  split; [reflexivity|].
  apply (filtered_reversed_range [Samples.milk]
           (mkFilterState 5 2 ["Dubai"] ["Grocery"] ["F"] All)).
  reflexivity.
Defined.

(** X2. Filtering composes: filtering a view again with the same state
    changes nothing, and two filter states can be applied in either
    order. *)
Theorem filtered_composes (T : list Transaction) (fs1 fs2 : FilterState) :
  App.filtered (App.filtered T fs1) fs1 = App.filtered T fs1 /\
  App.filtered (App.filtered T fs1) fs2 = App.filtered (App.filtered T fs2) fs1.
Proof.
  rewrite !filtered_as_filter, !filter_filter. split.
  - apply filter_ext. intros r. apply Bool.andb_diag.
  - apply filter_ext. intros r. apply Bool.andb_comm.
Qed.

Lemma passesb_with_loyalty (fs : FilterState) (lf : LoyaltyFilter) (r : Transaction) :
  Spec.passesb (More.with_loyalty fs lf) r
  = (Spec.passesb (More.with_loyalty fs All) r
     && match lf with
        | All => true
        | LoyaltyMembers => eq_bool true (has_loyalty r)
        | NonMembers => eq_bool false (has_loyalty r)
        end)%bool.
Proof.
  unfold Spec.passesb, More.with_loyalty. cbn.
  now rewrite Bool.andb_true_r.
Qed.

(** X3. The Members view and the Non-members view are the rows of the All
    view whose has_loyalty is true, respectively false; a row of the All
    view with a missing has_loyalty is in neither, so the two views have
    together as many rows as the All view less those with a missing flag. *)
Theorem loyalty_views_split (T : list Transaction) (fs : FilterState) :
  let all := App.filtered T (More.with_loyalty fs All) in
  let members := App.filtered T (More.with_loyalty fs LoyaltyMembers) in
  let others := App.filtered T (More.with_loyalty fs NonMembers) in
  members = filter (fun r => eq_bool true (has_loyalty r)) all /\
  others = filter (fun r => eq_bool false (has_loyalty r)) all /\
  (forall r, In r all -> has_loyalty r = None -> ~ In r members /\ ~ In r others) /\
  List.length all
  = (List.length members + List.length others
     + List.length (filter (fun r => negb (More.has_flag r)) all))%nat.
Proof.
  cbv zeta. rewrite !filtered_as_filter.
  assert (EM : filter (Spec.passesb (More.with_loyalty fs LoyaltyMembers)) T
               = filter (fun r => eq_bool true (has_loyalty r))
                        (filter (Spec.passesb (More.with_loyalty fs All)) T)).
  { rewrite filter_filter. apply filter_ext. intros r.
    apply passesb_with_loyalty. }
  assert (EN : filter (Spec.passesb (More.with_loyalty fs NonMembers)) T
               = filter (fun r => eq_bool false (has_loyalty r))
                        (filter (Spec.passesb (More.with_loyalty fs All)) T)).
  { rewrite filter_filter. apply filter_ext. intros r.
    apply passesb_with_loyalty. }
  rewrite EM, EN.
  generalize (filter (Spec.passesb (More.with_loyalty fs All)) T). intros L.
  split; [reflexivity|]. split; [reflexivity|]. split.
  - intros r _ Hn. rewrite !filter_In, Hn. simpl. intuition discriminate.
  - unfold More.has_flag.
    induction L as [|r L IH]; [reflexivity|]. simpl.
    destruct (has_loyalty r) as [[|]|]; simpl; lia.
Qed.

Lemma ts_min_le (xs : list (option Timestamp)) (t : Timestamp) :
  In (Some t) xs -> exists m, Sidebar.ts_min xs = Some m /\ m <= t.
Proof.
  induction xs as [|[v|] xs IH]; simpl; intros H.
  - contradiction.
  - destruct H as [E|H].
    + inversion E; subst. destruct (Sidebar.ts_min xs); eexists; split;
        try reflexivity; lia.
    + destruct (IH H) as (m & -> & Hm). eexists. split; [reflexivity|]. lia.
  - destruct H as [E|H]; [discriminate|]. now apply IH.
Qed.

Lemma ts_max_ge (xs : list (option Timestamp)) (t : Timestamp) :
  In (Some t) xs -> exists m, Sidebar.ts_max xs = Some m /\ t <= m.
Proof.
  induction xs as [|[v|] xs IH]; simpl; intros H.
  - contradiction.
  - destruct H as [E|H].
    + inversion E; subst. destruct (Sidebar.ts_max xs); eexists; split;
        try reflexivity; lia.
    + destruct (IH H) as (m & -> & Hm). eexists. split; [reflexivity|]. lia.
  - destruct H as [E|H]; [discriminate|]. now apply IH.
Qed.

Lemma isin_unique (xs : list string) (x : string) :
  In x xs -> isin (unique xs) x = true.
Proof.
  intros H. apply isin_In. unfold unique.
  now apply (In_uniq _ String.eqb string_eqb_eq).
Qed.

(** X4. With the widgets as they start (the full date span, every value
    selected, "All"), the filtered view is the whole table less the rows
    without a timestamp; a table in which every row has one is shown
    whole. *)
Theorem default_state_shows_all (T : list Transaction) (fs : FilterState) :
  Sidebar.default_state T = Some fs ->
  App.filtered T fs = filter More.has_timestamp T /\
  ((forall r, In r T -> transaction_datetime r <> None) -> App.filtered T fs = T).
Proof.
  intros Hd.
  assert (E : App.filtered T fs = filter More.has_timestamp T).
  { rewrite filtered_as_filter. apply filter_ext_in. intros r Hr.
    unfold Sidebar.default_state in Hd.
    destruct (Sidebar.ts_min (map transaction_datetime T)) as [lo|] eqn:Elo;
      [|discriminate].
    destruct (Sidebar.ts_max (map transaction_datetime T)) as [hi|] eqn:Ehi;
      [|discriminate].
    inversion Hd; subst fs; clear Hd.
    unfold Spec.passesb, More.has_timestamp.
    cbn [date_start date_end selected_emirates selected_categories
         selected_genders loyalty_filter].
    rewrite (isin_unique _ _ (in_map emirate _ _ Hr)).
    rewrite (isin_unique _ _ (in_map category _ _ Hr)).
    rewrite (isin_unique _ _ (in_map gender _ _ Hr)).
    destruct (transaction_datetime r) as [t|] eqn:Et; [|reflexivity].
    assert (Hin : In (Some t) (map transaction_datetime T)).
    { rewrite <- Et. now apply in_map. }
    destruct (ts_min_le _ _ Hin) as (m1 & E1 & L1).
    destruct (ts_max_ge _ _ Hin) as (m2 & E2 & L2).
    rewrite Elo in E1. rewrite Ehi in E2. inversion E1; inversion E2; subst.
    unfold ge_ts, lt_ts, to_datetime, Timedelta_days, Sidebar.date.
    assert (P : 0 < ns_per_day) by reflexivity.
    pose proof (Z.mul_div_le m1 ns_per_day P).
    pose proof (Z.mul_succ_div_gt m2 ns_per_day P).
    replace (m1 / ns_per_day * ns_per_day <=? t) with true
      by (symmetry; apply Z.leb_le; lia).
    replace (t <? m2 / ns_per_day * ns_per_day + 1 * ns_per_day) with true
      by (symmetry; apply Z.ltb_lt; lia).
    reflexivity. }
  split; [exact E|].
  intros Hall. rewrite E.
  rewrite <- (filter_true T) at 2. apply filter_ext_in. intros r Hr.
  unfold More.has_timestamp. specialize (Hall r Hr).
  now destruct (transaction_datetime r).
Qed.

Lemma default_state_shows_all_witness :
  exists fs,
    Sidebar.default_state [Samples.milk; Samples.rice; Samples.tv] = Some fs /\
    App.filtered [Samples.milk; Samples.rice; Samples.tv] fs
    = filter More.has_timestamp [Samples.milk; Samples.rice; Samples.tv].
Proof.
  eexists. split; [reflexivity|].
  exact (proj1 (default_state_shows_all
                  [Samples.milk; Samples.rice; Samples.tv] _ eq_refl)).
Defined.

(** ** Grouped tables: keys and totals *)

Lemma sum_filter_split {A} (f : A -> Q) (p q : A -> bool) (l : list A) :
  (forall r, In r l -> p r = true -> q r = true -> False) ->
  (sum (map f (filter (fun r => (p r || q r)%bool) l))
   == sum (map f (filter p l)) + sum (map f (filter q l)))%Q.
Proof.
  induction l as [|r l IH]; intros H.
  - unfold sum. simpl. ring.
  - assert (IH' := IH (fun x Hx => H x (or_intror Hx))). clear IH.
    assert (Hr := H r (or_introl eq_refl)).
    simpl. unfold sum in *.
    destruct (p r) eqn:Ep; destruct (q r) eqn:Eq; simpl.
    + exfalso. now apply Hr.
    + rewrite IH'. ring.
    + rewrite IH'. ring.
    + exact IH'.
Qed.

Section GroupTotals.
Variable A K : Type.
Variable eqb : K -> K -> bool.
Hypothesis eqb_eq : forall a b, eqb a b = true <-> a = b.
Variable key : A -> option K.
Variable f : A -> Q.

(** The group totals over distinct keys add up to the total over the rows
    that have one of these keys. *)
Lemma sum_groups (ks : list K) (df : list A) :
  NoDup ks ->
  (sum (map (fun k => sum (map f (filter (fun r => match key r with
                                                   | Some k' => eqb k' k
                                                   | None => false
                                                   end) df))) ks)
   == sum (map f (filter (fun r => match key r with
                                   | Some k' => existsb (eqb k') ks
                                   | None => false
                                   end) df)))%Q.
Proof.
  induction 1 as [|k ks Hk Hks IH].
  - simpl. induction df as [|r t IHt]; simpl; [reflexivity|].
    destruct (key r); exact IHt.
  - cbn [map]. change (sum (?x :: ?l)) with (x + sum l)%Q.
    rewrite IH.
    rewrite <- sum_filter_split.
    + erewrite filter_ext; [reflexivity|]. intros r. simpl.
      now destruct (key r).
    + intros r _ H1 H2. destruct (key r) as [k'|]; [|discriminate].
      apply eqb_eq in H1. subst k'.
      apply existsb_exists in H2. destruct H2 as (y & Hy & E).
      apply eqb_eq in E. now subst y.
Qed.

Lemma groupby_keys (leb : K -> K -> bool) (df : list A) :
  map fst (groupby eqb leb key df)
  = sort_keys leb (uniq eqb (dropna (map key df))).
Proof.
  unfold groupby. rewrite map_map. cbn [fst]. apply map_id.
Qed.

Lemma groupby_keys_NoDup (leb : K -> K -> bool) (df : list A) :
  NoDup (map fst (groupby eqb leb key df)).
Proof.
  rewrite groupby_keys.
  apply (Permutation_NoDup (Permutation_sym (sort_keys_perm _ _))).
  now apply NoDup_uniq.
Qed.

Lemma groupby_keys_In (leb : K -> K -> bool) (df : list A) (k : K) :
  In k (map fst (groupby eqb leb key df)) <-> exists r, In r df /\ key r = Some k.
Proof.
  rewrite groupby_keys.
  split.
  - intros H. apply (Permutation_in _ (sort_keys_perm _ _)) in H.
    rewrite (In_uniq _ eqb eqb_eq), In_dropna, in_map_iff in H.
    destruct H as (r & E & Hr). now exists r.
  - intros (r & Hr & E).
    apply (Permutation_in _ (Permutation_sym (sort_keys_perm _ _))).
    rewrite (In_uniq _ eqb eqb_eq), In_dropna, in_map_iff. now exists r.
Qed.

(** The group totals of a grouping add up to the total over the rows with
    a key. *)
Lemma groupby_total (leb : K -> K -> bool) (df : list A) :
  (sum (map (fun g => sum (map f (snd g))) (groupby eqb leb key df))
   == sum (map f (filter (fun r => match key r with
                                   | Some _ => true
                                   | None => false
                                   end) df)))%Q.
Proof.
  unfold groupby. rewrite map_map. cbn [snd].
  rewrite sum_groups.
  - erewrite filter_ext_in; [reflexivity|]. intros r Hr. cbv beta.
    destruct (key r) as [k'|] eqn:E; [|reflexivity].
    apply existsb_exists. exists k'. split; [|now apply eqb_eq].
    apply (Permutation_in _ (Permutation_sym (sort_keys_perm _ _))).
    rewrite (In_uniq _ eqb eqb_eq), In_dropna, in_map_iff. now exists r.
  - apply (Permutation_NoDup (Permutation_sym (sort_keys_perm _ _))).
    now apply NoDup_uniq.
Qed.
End GroupTotals.

Lemma sort_keys_sorted {K} (leb : K -> K -> bool) (ks : list K) :
  (forall a b, leb a b = true \/ leb b a = true) ->
  Sorted (fun a b => leb a b = true) (sort_keys leb ks).
Proof.
  intros total. unfold sort_keys.
  induction ks as [|k t IH]; simpl; [constructor|].
  generalize dependent (fold_right (insert_key leb) [] t). clear t.
  intros l Hl. induction Hl as [|h l Hl IH Hh]; simpl.
  - repeat constructor.
  - destruct (leb k h) eqn:E.
    + constructor; [now constructor|]. now constructor.
    + constructor; [exact IH|].
      assert (Hhk : leb h k = true) by (destruct (total k h); congruence).
      destruct Hh as [|y l' Hy]; simpl.
      * now constructor.
      * destruct (leb k y); now constructor.
Qed.

Lemma filter_all {A} (l : list A) : filter (fun _ : A => true) l = l.
Proof. apply filter_true. Qed.

(** X9. When the view has at most 15 (category, product) groups, the
    top-products table shows every group: nothing is cut off. *)
Theorem top_products_shows_all (alg : sort_algorithm) (df : list Transaction) :
  sorts_ascending alg ->
  (List.length (App.product_groups df) <= 15)%nat ->
  Permutation (App.top_products alg df) (App.product_groups df).
Proof.
  intros H Hlen. unfold App.top_products, head.
  destruct (sort_values_desc_sorted alg sales (App.product_groups df) H) as [P _].
  rewrite firstn_all2.
  - now symmetry.
  - now rewrite <- (Permutation_length P).
Qed.

Lemma top_products_shows_all_witness :
  sorts_ascending Spec.stable_sort /\
  (List.length (App.product_groups [Samples.milk; Samples.rice]) <= 15)%nat /\
  Permutation (App.top_products Spec.stable_sort [Samples.milk; Samples.rice])
              (App.product_groups [Samples.milk; Samples.rice]).
Proof.
  assert (L : (List.length (App.product_groups [Samples.milk; Samples.rice]) <= 15)%nat).
  { vm_compute. repeat constructor. }
  split; [exact stable_sort_contract|]. split; [exact L|].
  exact (top_products_shows_all Spec.stable_sort [Samples.milk; Samples.rice]
           stable_sort_contract L).
Defined.

(** X10. When the ad-budget table has one row per (month, category) and a
    row for every month and category of the view, the sales of the joined
    table add up to total_sales. *)
Theorem merged_total_when_covered (A : list AdBudget) (df : list Transaction) :
  NoDup (map (fun a => (ad_month a, ad_category a)) A) ->
  (forall r, In r df ->
             In (to_period_M_str (transaction_datetime r), category r)
                (map (fun a => (ad_month a, ad_category a)) A)) ->
  (sum (map m_total_aed (App.merged A df)) == App.total_sales df)%Q.
Proof.
  intros Hnd Hcov. unfold App.merged. rewrite merged_of_groups, map_map.
  cbn [m_total_aed].
  pose proof (sum_groups Transaction (string * string) pair_eqb pair_eqb_eq
                (fun r => Some (to_period_M_str (transaction_datetime r), category r))
                total_aed _ df Hnd) as S.
  rewrite map_map in S. unfold pair_eqb in S at 1. cbn [fst snd] in S.
  rewrite S. unfold App.total_sales.
  erewrite filter_ext_in; [now rewrite filter_all|].
  intros r Hr. cbv beta. apply existsb_exists.
  eexists. split; [apply (Hcov r Hr)|]. now apply pair_eqb_eq.
Qed.

Lemma merged_total_when_covered_witness :
  (sum (map m_total_aed
            (App.merged [Samples.january_groceries] [Samples.milk; Samples.rice]))
   == App.total_sales [Samples.milk; Samples.rice])%Q.
Proof.
  apply (merged_total_when_covered [Samples.january_groceries]
           [Samples.milk; Samples.rice]).
  - repeat constructor. simpl. tauto.
  - intros r [<-|[<-|[]]]; vm_compute; now left.
Defined.

(** ** Loyalty impact and age groups *)

Lemma sorted_bools (l : list bool) :
  NoDup l -> Sorted (fun a b => bool_leb a b = true) l ->
  l = filter (fun b => existsb (Bool.eqb b) l) [false; true].
Proof.
  intros Hnd Hs.
  destruct l as [|a [|b [|c l]]].
  - reflexivity.
  - destruct a; reflexivity.
  - inversion Hnd as [|? ? Hna _]; subst.
    inversion Hs as [|? ? _ Hh]; subst. inversion Hh as [|? ? Hab]; subst.
    destruct a, b; simpl in *; try discriminate; try reflexivity;
      exfalso; apply Hna; now left.
  - exfalso.
    inversion Hnd as [|? ? Hna Hnd1]; subst.
    inversion Hnd1 as [|? ? Hnb _]; subst.
    destruct a, b, c; simpl in *; tauto.
Qed.

Lemma existsb_flag (b : bool) (df : list Transaction) :
  existsb (Bool.eqb b) (dropna (map has_loyalty df))
  = existsb (fun r => eq_bool b (has_loyalty r)) df.
Proof.
  induction df as [|r df IH]; [reflexivity|]. simpl.
  destruct (has_loyalty r) as [v|]; simpl; rewrite IH; [|reflexivity].
  f_equal. destruct b, v; reflexivity.
Qed.

(** X11. The loyalty-impact table has at most two rows, "Non-members"
    before "Members", a row being there exactly when the view has a row
    with that flag; its sales add up to the sales of the rows whose
    has_loyalty is known, hence to total_sales when none is missing. *)
Theorem loyal_rows_and_total (df : list Transaction) :
  map customer_type (App.loyal df)
  = (if existsb (fun r => eq_bool false (has_loyalty r)) df
     then ["Non-members"] else [])
    ++ (if existsb (fun r => eq_bool true (has_loyalty r)) df
        then ["Members"] else []) /\
  (sum (map loyal_total_sales (App.loyal df))
   == sum (map total_aed (filter More.has_flag df)))%Q /\
  ((forall r, In r df -> has_loyalty r <> None) ->
   (sum (map loyal_total_sales (App.loyal df)) == App.total_sales df)%Q).
Proof.
  assert (T : (sum (map loyal_total_sales (App.loyal df))
               == sum (map total_aed (filter More.has_flag df)))%Q).
  { unfold App.loyal. rewrite map_map. cbn [loyal_total_sales].
    apply (groupby_total _ _ _ bool_eqb_eq). }
  split; [|split; [exact T|]].
  - unfold App.loyal. rewrite map_map. cbn [customer_type].
    rewrite <- (map_map fst (fun b : bool => if b then "Members" else "Non-members")).
    rewrite groupby_keys.
    rewrite (sorted_bools (sort_keys bool_leb _)).
    + cbn [filter].
      rewrite !(existsb_perm _ _ _ (sort_keys_perm _ _)).
      rewrite !(existsb_uniq _ _ bool_eqb_eq), !existsb_flag.
      destruct (existsb (fun r => eq_bool false (has_loyalty r)) df);
        destruct (existsb (fun r => eq_bool true (has_loyalty r)) df); reflexivity.
    + apply (Permutation_NoDup (Permutation_sym (sort_keys_perm _ _))).
      apply NoDup_uniq, bool_eqb_eq.
    + apply sort_keys_sorted. intros [|] [|]; simpl; auto.
  - intros Hnn. rewrite T. unfold App.total_sales.
    erewrite filter_ext_in; [now rewrite filter_all|].
    intros r Hr. unfold More.has_flag. specialize (Hnn r Hr).
    now destruct (has_loyalty r).
Qed.

Local Open Scope Q_scope.

(** X12. The age bins as [pd.cut] makes them: 18 to 25 inclusive is
    "18-24", above 25 to 35 is "25-34", and so on, each bin closed on the
    right, up to 80; an age below 18 or above 80 has no group. *)
Theorem age_group_intervals (x : Q) :
  (18 <= x <= 25 -> cut App.age_bins App.age_labels true x = Some "18-24"%string) /\
  (25 < x <= 35 -> cut App.age_bins App.age_labels true x = Some "25-34"%string) /\
  (35 < x <= 45 -> cut App.age_bins App.age_labels true x = Some "35-44"%string) /\
  (45 < x <= 55 -> cut App.age_bins App.age_labels true x = Some "45-54"%string) /\
  (55 < x <= 65 -> cut App.age_bins App.age_labels true x = Some "55-64"%string) /\
  (65 < x <= 80 -> cut App.age_bins App.age_labels true x = Some "65+"%string) /\
  (cut App.age_bins App.age_labels true x = None <-> x < 18 \/ 80 < x).
Proof.
  rewrite age_group_bins. unfold Qltb.
  repeat split; intros Hx; revert Hx;
    split_comparisons; simpl; intros Hx;
    try reflexivity; try discriminate; try (exfalso; lra); try lra.
Qed.


Local Close Scope Q_scope.



(** ** Month keys *)

Lemma all_from_spec (n : nat) (start : Z) (p : Z -> bool) :
  More.all_from n start p = true ->
  forall k, start <= k < start + Z.of_nat n -> p k = true.
Proof.
  revert start. induction n as [|n IH]; intros start H k Hk; [lia|].
  simpl in H. apply Bool.andb_true_iff in H. destruct H as [H1 H2].
  destruct (Z.eq_dec k start) as [->|Hne]; [exact H1|].
  apply (IH (start + 1)); [exact H2|lia].
Qed.

(** The calendar repeats every 400 years. *)
Lemma year_month_cycle (d q : Z) :
  year_month_of_days (d + q * More.cycle_days)
  = (fst (year_month_of_days d) + 400 * q, snd (year_month_of_days d)).
Proof.
  unfold year_month_of_days, More.cycle_days. cbv zeta.
  replace (d + q * 146097 + 719468) with (d + 719468 + q * 146097) by ring.
  rewrite Z.div_add by discriminate.
  set (z := d + 719468). set (era := z / 146097).
  replace (z + q * 146097 - (era + q) * 146097) with (z - era * 146097) by ring.
  set (doe := z - era * 146097).
  set (yoe := (doe - doe / 1460 + doe / 36524 - doe / 146096) / 365).
  set (doy := doe - (365 * yoe + yoe / 4 - yoe / 100)).
  set (mp := (5 * doy + 2) / 153).
  cbn [fst snd].
  destruct ((if mp <? 10 then mp + 3 else mp - 9) <=? 2); f_equal; ring.
Qed.

Lemma cycle_checked :
  More.all_from (Z.to_nat More.cycle_days) More.cycle_start
    (fun d => let a := year_month_of_days d in
              let b := year_month_of_days (d + 1) in
              ((1 <=? snd a) && (snd a <=? 12) && More.same_or_next_month a b)%bool)
  = true.
Proof. vm_compute. reflexivity. Qed.

(** X15. Whatever the day, the month of its key is between 1 and 12, and
    the key of the next day is the same month or the month after it: no
    month is skipped and none comes twice. *)
Theorem month_keys_advance (days : Z) :
  1 <= snd (year_month_of_days days) <= 12 /\
  More.same_or_next_month (year_month_of_days days)
                          (year_month_of_days (days + 1)) = true.
Proof.
  set (q := (days - More.cycle_start) / More.cycle_days).
  set (d := More.cycle_start + (days - More.cycle_start) mod More.cycle_days).
  assert (Hd : More.cycle_start <= d
               < More.cycle_start + Z.of_nat (Z.to_nat More.cycle_days)).
  { unfold d. rewrite Z2Nat.id by discriminate.
    pose proof (Z.mod_pos_bound (days - More.cycle_start) More.cycle_days eq_refl).
    lia. }
  assert (Ed : days = d + q * More.cycle_days).
  { unfold d, q.
    pose proof (Z.div_mod (days - More.cycle_start) More.cycle_days).
    unfold More.cycle_days in *. lia. }
  pose proof (all_from_spec _ _ _ cycle_checked d Hd) as C. cbv zeta in C.
  apply Bool.andb_true_iff in C. destruct C as [C C3].
  apply Bool.andb_true_iff in C. destruct C as [C1 C2].
  apply Z.leb_le in C1. apply Z.leb_le in C2.
  rewrite Ed.
  replace (d + q * More.cycle_days + 1) with (d + 1 + q * More.cycle_days) by ring.
  rewrite !year_month_cycle. cbn [fst snd].
  split; [lia|].
  unfold More.same_or_next_month in *. cbn [fst snd].
  destruct (year_month_of_days d) as [y1 m1].
  destruct (year_month_of_days (d + 1)) as [y2 m2].
  cbn [fst snd] in *.
  repeat rewrite Bool.orb_true_iff in *. repeat rewrite Bool.andb_true_iff in *.
  repeat rewrite Z.eqb_eq in *. lia.
Qed.

(** ** Loading tables *)

Lemma lookup_found (path : string) (cache : Loader.Cache) (t : Csv.Table) :
  Loader.lookup path ((path, t) :: cache) = Some t.
Proof. simpl. now rewrite String.eqb_refl. Qed.

(** X17. [load_data] reads a file once: after a successful load, loading
    the same path again gives the same table and leaves the memo as it is,
    whatever the files hold by then; the tables remembered for other paths
    are not touched; and a failed load remembers nothing. *)
Theorem load_data_memo (files : Loader.Files) (path : string) (cache : Loader.Cache) :
  (forall t cache',
      Loader.load_data files path cache = (Some t, cache') ->
      (forall files', Loader.load_data files' path cache' = (Some t, cache')) /\
      (forall other, other <> path ->
                     Loader.lookup other cache' = Loader.lookup other cache)) /\
  (forall cache', Loader.load_data files path cache = (None, cache') ->
                  cache' = cache /\ Loader.lookup path cache = None).
Proof.
  unfold Loader.load_data. split.
  - intros t cache' H.
    destruct (Loader.lookup path cache) as [t0|] eqn:L.
    + injection H as <- <-. split; [|reflexivity].
      intros files'. now rewrite L.
    + destruct (files path) as [text|]; [|discriminate].
      destruct (Csv.read_csv text) as [t1|]; [|discriminate].
      injection H as <- <-. split.
      * intros files'. now rewrite lookup_found.
      * intros other Hne. simpl.
        destruct (String.eqb path other) eqn:E; [|reflexivity].
        apply String.eqb_eq in E. congruence.
  - intros cache' H.
    destruct (Loader.lookup path cache) as [t0|] eqn:L; [discriminate|].
    destruct (files path) as [text|].
    + destruct (Csv.read_csv text) as [t1|]; [discriminate|].
      injection H as <-. now split.
    + injection H as <-. now split.
Qed.

(** ** The chart of [new_app.py] *)

Lemma Permutation_filter {A} (f : A -> bool) (l l' : list A) :
  Permutation l l' -> Permutation (filter f l) (filter f l').
Proof.
  induction 1 as [|x l l' P IH|x y l|l l' l'' P1 IH1 P2 IH2]; simpl.
  - constructor.
  - destruct (f x); [now constructor|assumption].
  - destruct (f x), (f y); try reflexivity. apply perm_swap.
  - now transitivity (filter f l').
Qed.

Lemma filter_partition_perm {A} (f : A -> bool) (l : list A) :
  Permutation (filter (fun x => negb (f x)) l ++ filter f l) l.
Proof.
  induction l as [|x l IH]; simpl; [constructor|].
  destruct (f x); simpl.
  - rewrite <- Permutation_middle. now constructor.
  - now constructor.
Qed.

Lemma forallb_perm {A} (f : A -> bool) (l l' : list A) :
  Permutation l l' -> forallb f l = forallb f l'.
Proof.
  intros P. apply Bool.eq_iff_eq_true. rewrite !forallb_forall.
  split; intros H x Hx; apply H.
  - now apply (Permutation_in _ (Permutation_sym P)).
  - now apply (Permutation_in _ P).
Qed.

Section ChartFacts.
Variable alg : sort_algorithm.
Hypothesis alg_sorts : sorts_ascending alg.

Lemma sort_values_month_dt_perm (df : list Chart.Row) :
  Permutation (Chart.sort_values_month_dt alg df) df.
Proof.
  unfold Chart.sort_values_month_dt.
  destruct (alg_sorts Chart.Row
              (fun r => match snd r with Some t => inject_Z t | None => (0 # 1)%Q end)
              (filter (fun r => negb (Chart.isna r)) df)) as [P _].
  rewrite <- P. apply filter_partition_perm.
Qed.

(** After sorting, the dated rows come first, in date order, and the
    undated rows last. *)
Lemma sort_values_month_dt_order (df : list Chart.Row) :
  exists ds n,
    map snd (Chart.sort_values_month_dt alg df) = map Some ds ++ repeat None n /\
    StronglySorted Z.le ds.
Proof.
  unfold Chart.sort_values_month_dt. rewrite map_app.
  set (key := fun r : Chart.Row =>
                match snd r with Some t => inject_Z t | None => (0 # 1)%Q end).
  destruct (alg_sorts Chart.Row key (filter (fun r => negb (Chart.isna r)) df))
    as [P S].
  assert (Hdated : Forall (fun r => Chart.isna r = false)
                          (alg Chart.Row key (filter (fun r => negb (Chart.isna r)) df))).
  { apply Forall_forall. intros r Hr.
    apply (Permutation_in _ (Permutation_sym P)) in Hr.
    apply filter_In in Hr. destruct Hr as [_ Hr]. now apply Bool.negb_true_iff in Hr. }
  revert S Hdated.
  generalize (alg Chart.Row key (filter (fun r => negb (Chart.isna r)) df)).
  intros dated S Hdated.
  assert (Hundated : exists n, map snd (filter Chart.isna df) = repeat None n).
  { clear. induction df as [|[m [t|]] df [n IH]]; simpl.
    - now exists O.
    - now exists n.
    - exists (S n). simpl. now rewrite IH. }
  destruct Hundated as [n Hn].
  assert (Hds : exists ds, map snd dated = map Some ds /\ StronglySorted Z.le ds).
  { induction dated as [|[m o] dated IH]; [exists []; split; constructor|].
    inversion S as [|? ? S' Hhd]; subst. inversion Hdated as [|? ? Hna Hd']; subst.
    destruct (IH S' Hd') as (ds & E & Sd).
    destruct o as [t|]; [|discriminate].
    exists (t :: ds). split; [simpl; now rewrite E|].
    constructor; [assumption|].
    apply Forall_forall. intros u Hu.
    assert (Hin : In (Some u) (map snd dated)) by (rewrite E; now apply in_map).
    apply in_map_iff in Hin. destruct Hin as ([m' o'] & Eo & Hr). simpl in Eo. subst o'.
    rewrite Forall_forall in Hhd. specialize (Hhd _ Hr).
    unfold key in Hhd. simpl in Hhd. rewrite Zle_Qle. exact Hhd. }
  destruct Hds as (ds & Hd & Sd). exists ds, n.
  split; [|exact Sd]. f_equal; assumption.
Qed.
End ChartFacts.

Lemma flat_map_skip {A B} (skip : A -> bool) (g : A -> list B) (l : list A) :
  flat_map (fun x => if skip x then [] else g x) l
  = flat_map g (filter (fun x => negb (skip x)) l).
Proof.
  induction l as [|x l IH]; [reflexivity|]. cbn [flat_map filter].
  rewrite IH. now destruct (skip x).
Qed.

Lemma length_flat_map_two {A B} (a b : A -> B) (l : list A) :
  List.length (flat_map (fun x => [a x; b x]) l) = (2 * List.length l)%nat.
Proof.
  induction l as [|x l IH]; [reflexivity|]. cbn [flat_map List.length app].
  rewrite IH. lia.
Qed.

Lemma forallb_isna_dated (to_dt : string -> option Timestamp) (cat : string)
      (merged : list MergedRow) :
  forallb Chart.isna
          (filter (fun r : Chart.Row => String.eqb (m_category (fst r)) cat)
                  (map (fun m => (m, to_dt (m_month m))) merged))
  = negb (existsb (fun m => (String.eqb (m_category m) cat
                             && match to_dt (m_month m) with
                                | Some _ => true
                                | None => false
                                end)%bool) merged).
Proof.
  induction merged as [|m l IH]; [reflexivity|]. simpl.
  destruct (String.eqb (m_category m) cat); simpl; [|exact IH].
  rewrite IH. unfold Chart.isna. simpl. now destruct (to_dt (m_month m)).
Qed.

(** X19. The figure of [new_app.py] is made of one pair of lines per
    category that has at least one month that can be turned into a date,
    each such category once: first the dashed budget line, then the solid
    sales line.  The two lines of a category have the same x values, the
    dates of the joined rows of the category, and as y values the budgets
    and the sales of these very rows, in the same order: every joined row of
    the category gives one point, also a row whose month has no date; the
    dated points come in increasing date order and the undated ones after
    them.  A category without any dated month gets no line. *)
Theorem chart_traces (alg : sort_algorithm) (to_dt : string -> option Timestamp)
        (merged : list MergedRow) :
  sorts_ascending alg ->
  exists (cats : list string) (dfc : string -> list Chart.Row),
    Chart.traces alg to_dt merged
    = flat_map
        (fun cat =>
           [Chart.mkTrace (cat ++ " - Ad Budget")%string (map snd (dfc cat))
                          (map (fun r : Chart.Row => m_ad_budget_aed (fst r)) (dfc cat))
                          "dash";
            Chart.mkTrace (cat ++ " - Sales")%string (map snd (dfc cat))
                          (map (fun r : Chart.Row => m_total_aed (fst r)) (dfc cat))
                          "solid"])
        cats /\
    NoDup cats /\
    (forall cat,
        In cat cats <->
        exists m, In m merged /\ m_category m = cat /\ to_dt (m_month m) <> None) /\
    (forall cat,
        Permutation (dfc cat)
                    (map (fun m => (m, to_dt (m_month m)))
                         (filter (fun m => String.eqb (m_category m) cat) merged)) /\
        exists ds n, map snd (dfc cat) = map Some ds ++ repeat None n /\
                     StronglySorted Z.le ds) /\
    List.length (Chart.traces alg to_dt merged) = (2 * List.length cats)%nat.
Proof.
  intros Halg. unfold Chart.traces. cbv zeta.
  set (M := map (fun m => (m, to_dt (m_month m))) merged).
  set (M' := Chart.sort_values_month_dt alg M).
  assert (PM : Permutation M' M) by now apply sort_values_month_dt_perm.
  set (dfc := fun cat : string =>
                Chart.sort_values_month_dt alg
                  (bool_index M'
                     (map (fun r : Chart.Row => String.eqb (m_category (fst r)) cat) M'))).
  assert (Pdfc : forall cat,
             Permutation (dfc cat)
               (filter (fun r : Chart.Row => String.eqb (m_category (fst r)) cat) M)).
  { intros cat. unfold dfc.
    rewrite sort_values_month_dt_perm, bool_index_map by assumption.
    now apply Permutation_filter. }
  assert (Skip : forall cat,
             forallb Chart.isna (dfc cat)
             = negb (existsb (fun m => (String.eqb (m_category m) cat
                                        && match to_dt (m_month m) with
                                           | Some _ => true
                                           | None => false
                                           end)%bool) merged)).
  { intros cat. rewrite (forallb_perm _ _ _ (Pdfc cat)). apply forallb_isna_dated. }
  set (all_cats := unique (map (fun r : Chart.Row => m_category (fst r)) M')).
  set (cats := filter (fun cat => negb (forallb Chart.isna (dfc cat))) all_cats).
  assert (E : flat_map
                (fun cat =>
                   if forallb Chart.isna (dfc cat) then []
                   else [Chart.mkTrace (cat ++ " - Ad Budget")%string (map snd (dfc cat))
                           (map (fun r : Chart.Row => m_ad_budget_aed (fst r)) (dfc cat))
                           "dash";
                         Chart.mkTrace (cat ++ " - Sales")%string (map snd (dfc cat))
                           (map (fun r : Chart.Row => m_total_aed (fst r)) (dfc cat))
                           "solid"]) all_cats
              = flat_map
                  (fun cat =>
                     [Chart.mkTrace (cat ++ " - Ad Budget")%string (map snd (dfc cat))
                        (map (fun r : Chart.Row => m_ad_budget_aed (fst r)) (dfc cat))
                        "dash";
                      Chart.mkTrace (cat ++ " - Sales")%string (map snd (dfc cat))
                        (map (fun r : Chart.Row => m_total_aed (fst r)) (dfc cat))
                        "solid"]) cats).
  { unfold cats.
    exact (flat_map_skip (fun cat => forallb Chart.isna (dfc cat)) _ all_cats). }
  exists cats, dfc.
  split; [exact E|].
  split; [apply NoDup_filter, NoDup_uniq, string_eqb_eq|].
  split; [|split].
  - intros cat. unfold cats. rewrite filter_In, Skip, Bool.negb_involutive.
    unfold all_cats, unique. rewrite (In_uniq _ _ string_eqb_eq), in_map_iff.
    rewrite existsb_exists. split.
    + intros [_ (m & Hm & Hc)]. apply Bool.andb_true_iff in Hc.
      destruct Hc as [Hc Hd]. apply String.eqb_eq in Hc.
      exists m. repeat split; try assumption.
      destruct (to_dt (m_month m)); discriminate.
    + intros (m & Hm & Hc & Hd). split.
      * exists (m, to_dt (m_month m)). split; [exact Hc|].
        apply (Permutation_in _ (Permutation_sym PM)). unfold M.
        exact (in_map (fun m => (m, to_dt (m_month m))) merged m Hm).
      * exists m. split; [exact Hm|]. apply Bool.andb_true_iff. split.
        -- now apply String.eqb_eq.
        -- destruct (to_dt (m_month m)); [reflexivity|congruence].
  - intros cat. split.
    + rewrite (Pdfc cat). unfold M. now rewrite filter_map_comm.
    + unfold dfc. now apply sort_values_month_dt_order.
  - refine (eq_trans (f_equal (@List.length _) E) _). apply length_flat_map_two.
Qed.

Lemma chart_traces_witness :
  sorts_ascending Spec.stable_sort /\
  exists (cats : list string) (dfc : string -> list Chart.Row),
    Chart.traces Spec.stable_sort More.only_january More.joined_samples
    = flat_map
        (fun cat =>
           [Chart.mkTrace (cat ++ " - Ad Budget")%string (map snd (dfc cat))
                          (map (fun r : Chart.Row => m_ad_budget_aed (fst r)) (dfc cat))
                          "dash";
            Chart.mkTrace (cat ++ " - Sales")%string (map snd (dfc cat))
                          (map (fun r : Chart.Row => m_total_aed (fst r)) (dfc cat))
                          "solid"])
        cats /\
    NoDup cats /\
    (forall cat,
        In cat cats <->
        exists m, In m More.joined_samples /\ m_category m = cat /\
                  More.only_january (m_month m) <> None) /\
    (forall cat,
        Permutation (dfc cat)
                    (map (fun m => (m, More.only_january (m_month m)))
                         (filter (fun m => String.eqb (m_category m) cat)
                                 More.joined_samples)) /\
        exists ds n, map snd (dfc cat) = map Some ds ++ repeat None n /\
                     StronglySorted Z.le ds) /\
    List.length (Chart.traces Spec.stable_sort More.only_january More.joined_samples)
    = (2 * List.length cats)%nat.
Proof.
  split; [exact stable_sort_contract|].
  exact (chart_traces Spec.stable_sort More.only_january More.joined_samples
                      stable_sort_contract).
Defined.
